(** * mdns-manager: a shallow embedding of [src/main.py]

    The program loads a JSON configuration, builds a zeroconf service
    descriptor from it and re-registers that descriptor on a timer.

    - Part I   : Python values, exceptions, the [MDNSConfig] dataclass.
    - Part II  : [json.dumps(..., indent=4)], the file store and [load_config].
    - Part III : the descriptor built by [main].
    - Part IV  : [MDNSManager] over [sched.scheduler] and a zeroconf responder.
    - Part V   : a reference JSON decoder and [str], to run the model on real texts.
    - Part VI  : the vocabulary of the properties and sample inputs.
    - Part VII : the properties.
    - Part VIII: further properties of the same functions. *)

From Stdlib Require Import ZArith QArith String Ascii List Lia Bool.
From Stdlib Require Import DecimalString SpecFloat Lqa.
From stdpp Require Import gmap strings list.

Set Warnings "-register-all".

Open Scope string_scope.
Open Scope list_scope.
Open Scope Z_scope.

(* ===================================================================== *)
(** * Part I: values, exceptions, configuration                           *)
(* ===================================================================== *)

(** Python [float] is IEEE binary64. *)
Definition float := spec_float.

(** [float(text)] for the decimal [m * 10^e10]: the nearest binary64,
    ties to even.  A quotient is cut with a sticky last bit well below
    the 53 bits that are kept. *)
Definition float_of_decimal (neg : bool) (m e10 : Z) : float :=
  let signed (x : Z) := if neg then - x else x in
  if m =? 0 then S754_zero neg
  else if 310 <? e10 + Z.log2 m / 4 then S754_infinity neg
  else if e10 + Z.log2 m / 3 + 1 <? -330 then S754_zero neg
  else if 0 <=? e10 then binary_normalize 53 1024 (signed (m * 10 ^ e10)) 0 false
  else
    let d := 10 ^ (- e10) in
    let k := 66 + Z.log2 d in
    let n := m * 2 ^ k in
    let sticky := if n mod d =? 0 then 0 else 1 in
    binary_normalize 53 1024 (signed (Z.lor (n / d) sticky)) (- k) false.

(** The values [json.loads] can return.  A [dict] keeps its items in
    insertion order; a text is the sequence of its UTF-8 bytes. *)
Inductive pyval : Type :=
| PNone
| PBool (b : bool)
| PInt (z : Z)
| PFloat (f : float)
| PStr (s : string)
| PList (l : list pyval)
| PDict (d : list (string * pyval)).

(** Truth value testing ([bool(v)], hence [not v]). *)
Definition py_truthy (v : pyval) : bool :=
  match v with
  | PNone => false
  | PBool b => b
  | PInt z => negb (z =? 0)
  | PFloat (S754_zero _) => false
  | PFloat _ => true
  | PStr s => negb (String.eqb s EmptyString)
  | PList l => match l with [] => false | _ => true end
  | PDict d => match d with [] => false | _ => true end
  end.

Definition py_not (v : pyval) : bool := negb (py_truthy v).

(** Exceptions, by class. *)
Inductive exn : Type :=
| FileNotFoundError
| TypeError
| JSONDecodeError
| OtherError (cls : string).

(** The classes the program does not name but its calls can raise. *)
Definition UnicodeDecodeError : exn := OtherError "UnicodeDecodeError".
Definition PermissionError : exn := OtherError "PermissionError".
Definition IsADirectoryError : exn := OtherError "IsADirectoryError".
Definition NotADirectoryError : exn := OtherError "NotADirectoryError".
Definition RecursionError : exn := OtherError "RecursionError".
Definition ValueError : exn := OtherError "ValueError".

Inductive result (A : Type) : Type :=
| Ok (a : A)
| Raise (e : exn).
Arguments Ok {A} a.
Arguments Raise {A} e.

Definition result_bind {A B} (r : result A) (k : A -> result B) : result B :=
  match r with
  | Ok a => k a
  | Raise e => Raise e
  end.

(** The dataclass.  Its fields are annotated but nothing checks the
    annotations, so every field holds an arbitrary value. *)
Record MDNSConfig : Type := mkMDNSConfig {
  type : pyval;
  name : pyval;
  port : pyval;
  properties : pyval;
  timeout : pyval
}.

(** [MDNSConfig()]. *)
Definition MDNSConfig_default : MDNSConfig :=
  {| type := PStr "_http._tcp.local.";
     name := PStr EmptyString;
     port := PInt 8080;
     properties := PDict [];
     timeout := PInt 60 |}.

Definition field_names : list string :=
  ["type"; "name"; "port"; "properties"; "timeout"].

Definition is_field (k : string) : bool :=
  existsb (String.eqb k) field_names.

(** Binding one keyword argument of the generated [__init__]: a keyword
    that is not a parameter is a [TypeError]. *)
Definition set_field (c : MDNSConfig) (k : string) (v : pyval) : result MDNSConfig :=
  if String.eqb k "type" then
    Ok {| type := v; name := name c; port := port c;
          properties := properties c; timeout := timeout c |}
  else if String.eqb k "name" then
    Ok {| type := type c; name := v; port := port c;
          properties := properties c; timeout := timeout c |}
  else if String.eqb k "port" then
    Ok {| type := type c; name := name c; port := v;
          properties := properties c; timeout := timeout c |}
  else if String.eqb k "properties" then
    Ok {| type := type c; name := name c; port := port c;
          properties := v; timeout := timeout c |}
  else if String.eqb k "timeout" then
    Ok {| type := type c; name := name c; port := port c;
          properties := properties c; timeout := v |}
  else Raise TypeError.

Fixpoint bind_kwargs (kw : list (string * pyval)) (c : MDNSConfig) : result MDNSConfig :=
  match kw with
  | [] => Ok c
  | (k, v) :: rest => result_bind (set_field c k v) (bind_kwargs rest)
  end.

(** The call [MDNSConfig] with a double-starred argument: unpacking anything but a mapping is a [TypeError];
    parameters that are not passed take their defaults. *)
Definition MDNSConfig_init (v : pyval) : result MDNSConfig :=
  match v with
  | PDict d => bind_kwargs d MDNSConfig_default
  | _ => Raise TypeError
  end.

(** [dataclasses.asdict]. *)
Definition asdict (c : MDNSConfig) : pyval :=
  PDict [("type", type c); ("name", name c); ("port", port c);
         ("properties", properties c); ("timeout", timeout c)].

(** Reading an item of a [dict] value, and the field a key names. *)
Fixpoint dict_get (d : list (string * pyval)) (k : string) : option pyval :=
  match d with
  | [] => None
  | (k', v) :: rest =>
      match dict_get rest k with
      | Some v' => Some v'
      | None => if String.eqb k' k then Some v else None
      end
  end.

Definition get_field (c : MDNSConfig) (k : string) : option pyval :=
  if String.eqb k "type" then Some (type c)
  else if String.eqb k "name" then Some (name c)
  else if String.eqb k "port" then Some (port c)
  else if String.eqb k "properties" then Some (properties c)
  else if String.eqb k "timeout" then Some (timeout c)
  else None.

(* ===================================================================== *)
(** * Part II: the json module and [load_config]                          *)
(* ===================================================================== *)

Definition dq : string := String "034"%char EmptyString.
Definition newline : string := String "010"%char EmptyString.

Definition hex_digit (n : Z) : string :=
  String (ascii_of_nat (Z.to_nat (if n <? 10 then 48 + n else 87 + n))) EmptyString.

(** [\uXXXX] for a code unit below [0x10000]. *)
Definition u_escape (u : Z) : string :=
  "\u" +:+ hex_digit (Z.land (Z.shiftr u 12) 15) +:+ hex_digit (Z.land (Z.shiftr u 8) 15)
       +:+ hex_digit (Z.land (Z.shiftr u 4) 15) +:+ hex_digit (Z.land u 15).

(** The code points of a text given as UTF-8 bytes. *)
Definition cont (b : Z) : Z := Z.land b 63.

Fixpoint code_points (bs : list Z) : list Z :=
  match bs with
  | [] => []
  | b0 :: r0 =>
      if b0 <? 128 then b0 :: code_points r0
      else match r0 with
      | [] => [b0]
      | b1 :: r1 =>
          if b0 <? 224 then
            Z.lor (Z.shiftl (Z.land b0 31) 6) (cont b1) :: code_points r1
          else match r1 with
          | [] => [b0; b1]
          | b2 :: r2 =>
              if b0 <? 240 then
                Z.lor (Z.shiftl (Z.land b0 15) 12)
                      (Z.lor (Z.shiftl (cont b1) 6) (cont b2)) :: code_points r2
              else match r2 with
              | [] => [b0; b1; b2]
              | b3 :: r3 =>
                  Z.lor (Z.shiftl (Z.land b0 7) 18)
                        (Z.lor (Z.shiftl (cont b1) 12)
                               (Z.lor (Z.shiftl (cont b2) 6) (cont b3)))
                  :: code_points r3
              end
          end
      end
  end.

Definition bytes_of (s : string) : list Z :=
  map (fun a => Z.of_nat (nat_of_ascii a)) (list_ascii_of_string s).

(** [json.encoder.py_encode_basestring_ascii], one code point at a time. *)
Definition escape_code_point (cp : Z) : string :=
  if cp =? 34 then "\" +:+ dq
  else if cp =? 92 then "\\"
  else if cp =? 10 then "\n"
  else if cp =? 13 then "\r"
  else if cp =? 9 then "\t"
  else if cp =? 12 then "\f"
  else if cp =? 8 then "\b"
  else if (32 <=? cp) && (cp <=? 126) then
    String (ascii_of_nat (Z.to_nat cp)) EmptyString
  else if cp <? 65536 then u_escape cp
  else
    let v := cp - 65536 in
    u_escape (Z.lor 55296 (Z.land (Z.shiftr v 10) 1023))
    +:+ u_escape (Z.lor 56320 (Z.land v 1023)).

Definition encode_basestring_ascii (s : string) : string :=
  dq +:+ String.concat EmptyString (map escape_code_point (code_points (bytes_of s))) +:+ dq.

Fixpoint spaces (n : nat) : string :=
  match n with
  | O => EmptyString
  | S n' => String " "%char (spaces n')
  end.


(** ** [float.__repr__]: the shortest decimal that reads back as the float *)

Definition digit_string (z : Z) : string := NilZero.string_of_uint (N.to_uint (Z.to_N z)).

Fixpoint strip_zeros (n : nat) (c : Z) : Z :=
  match n with
  | O => c
  | S n' => if (c mod 10 =? 0) && negb (c =? 0) then strip_zeros n' (c / 10) else c
  end.

(** [num / den < 10^k]. *)
Definition below_pow10 (num den k : Z) : bool :=
  if 0 <=? k then num <? den * 10 ^ k else num * 10 ^ (- k) <? den.

Fixpoint first_pow10_above (n : nat) (num den k : Z) : Z :=
  match n with
  | O => k
  | S n' => if below_pow10 num den k then k else first_pow10_above n' num den (k + 1)
  end.

(** The position of the decimal point: the least [k] with [num/den < 10^k]. *)
Definition decimal_point (num den : Z) : Z :=
  first_pow10_above 6 num den ((Z.log2 num - Z.log2 den) * 30103 / 100000 - 1).

(** The shortest decimal [c * 10^(k-p)] that [float] maps back to [x],
    trying [p] digits, then [p + 1], and so on; of two with the same
    number of digits, the nearer to [x]. *)
Fixpoint shortest_digits (n : nat) (x : float) (num den k p : Z) : Z * Z :=
  let s := p - k in
  let N := if 0 <=? s then num * 10 ^ s else num in
  let D := if 0 <=? s then den else den * 10 ^ (- s) in
  let lo := N / D in
  let r := N mod D in
  let reads_back (c : Z) :=
    match SFcompare (float_of_decimal false c (k - p)) x with
    | Some Eq => true
    | _ => false
    end in
  let pick (c : Z) := if c =? 10 ^ p then (1, k + 1) else (c, k) in
  match n with
  | O => pick lo
  | S n' =>
      if r =? 0 then pick lo
      else
        match reads_back lo, reads_back (lo + 1) with
        | true, true =>
            if 2 * r <? D then pick lo
            else if D <? 2 * r then pick (lo + 1)
            else if Z.even lo then pick lo else pick (lo + 1)
        | true, false => pick lo
        | false, true => pick (lo + 1)
        | false, false => shortest_digits n' x num den k (p + 1)
        end
  end.

(** The layout of [repr]: exponent notation when the decimal point falls
    more than 16 places right of, or 4 or more places left of, the digits. *)
Definition format_short (neg : bool) (c decpt : Z) : string :=
  let digits := digit_string (strip_zeros 20 c) in
  let n := Z.of_nat (String.length digits) in
  let body :=
    if (decpt <=? -4) || (16 <? decpt) then
      let e := decpt - 1 in
      let mant :=
        match digits with
        | String d EmptyString => digits
        | String d rest => String d ("." +:+ rest)
        | EmptyString => digits
        end in
      let ed := digit_string (Z.abs e) in
      mant +:+ "e" +:+ (if e <? 0 then "-" else "+")
           +:+ (if Z.abs e <? 10 then "0" +:+ ed else ed)
    else if decpt <=? 0 then
      "0." +:+ String.concat EmptyString (repeat "0" (Z.to_nat (- decpt))) +:+ digits
    else if n <=? decpt then
      digits +:+ String.concat EmptyString (repeat "0" (Z.to_nat (decpt - n))) +:+ ".0"
    else
      substring 0 (Z.to_nat decpt) digits +:+ "."
      +:+ substring (Z.to_nat decpt) (Z.to_nat (n - decpt)) digits in
  if neg then "-" +:+ body else body.

Definition float_repr (f : float) : string :=
  match f with
  | S754_nan => "nan"
  | S754_infinity false => "inf"
  | S754_infinity true => "-inf"
  | S754_zero false => "0.0"
  | S754_zero true => "-0.0"
  | S754_finite neg m e =>
      let num := if 0 <=? e then Zpos m * 2 ^ e else Zpos m in
      let den := if 0 <=? e then 1 else 2 ^ (- e) in
      let k := decimal_point num den in
      let '(c, decpt) := shortest_digits 17 (S754_finite false m e) num den k 1 in
      format_short neg c decpt
  end.

Definition floatstr (f : float) : string :=
  match f with
  | S754_nan => "NaN"
  | S754_infinity false => "Infinity"
  | S754_infinity true => "-Infinity"
  | _ => float_repr f
  end.

(** The encoder of [json.dumps] for a non-negative integer [indent]:
    items one per line, [","] between items and [": "] after a key. *)
Fixpoint iterencode (indent level : nat) (o : pyval) {struct o} : string :=
  match o with
  | PNone => "null"
  | PBool true => "true"
  | PBool false => "false"
  | PInt z => NilZero.string_of_int (Z.to_int z)
  | PFloat f => floatstr f
  | PStr s => encode_basestring_ascii s
  | PList [] => "[]"
  | PList l =>
      let newline_indent := newline +:+ spaces (indent * S level) in
      "[" +:+ newline_indent
      +:+ (fix items (l : list pyval) : string :=
            match l with
            | [] => EmptyString
            | [x] => iterencode indent (S level) x
            | x :: r => iterencode indent (S level) x +:+ "," +:+ newline_indent +:+ items r
            end) l
      +:+ newline +:+ spaces (indent * level) +:+ "]"
  | PDict [] => "{}"
  | PDict d =>
      let newline_indent := newline +:+ spaces (indent * S level) in
      "{" +:+ newline_indent
      +:+ (fix items (d : list (string * pyval)) : string :=
            match d with
            | [] => EmptyString
            | [(k, x)] =>
                encode_basestring_ascii k +:+ ": " +:+ iterencode indent (S level) x
            | (k, x) :: r =>
                encode_basestring_ascii k +:+ ": " +:+ iterencode indent (S level) x
                +:+ "," +:+ newline_indent +:+ items r
            end) d
      +:+ newline +:+ spaces (indent * level) +:+ "}"
  end.

Definition json_dumps (obj : pyval) (indent : nat) : string :=
  iterencode indent 0 obj.

(** The text written for a missing file, as [json.dumps] lays it out. *)
Definition default_config_text : string :=
  "{" +:+ newline
  +:+ "    " +:+ dq +:+ "type" +:+ dq +:+ ": " +:+ dq +:+ "_http._tcp.local." +:+ dq +:+ "," +:+ newline
  +:+ "    " +:+ dq +:+ "name" +:+ dq +:+ ": " +:+ dq +:+ dq +:+ "," +:+ newline
  +:+ "    " +:+ dq +:+ "port" +:+ dq +:+ ": 8080," +:+ newline
  +:+ "    " +:+ dq +:+ "properties" +:+ dq +:+ ": {}," +:+ newline
  +:+ "    " +:+ dq +:+ "timeout" +:+ dq +:+ ": 60" +:+ newline
  +:+ "}".

(** Logging: the records emitted through [logger], oldest first. *)
Inductive log_record : Type :=
| INFO (msg : string)
| WARNING (msg : string).

(** ** The file store *)

(** What is at a path: a regular file the process may read, with its
    bytes and whether the process may write to it; a file the process
    may not open; or a directory, in which the process may or may not
    create files. *)
Inductive node : Type :=
| File (bytes : string) (writable : bool)
| Locked
| Directory (writable : bool).

(** What [load_config] can touch: the disk, a map from paths to what is
    there, and the log. *)
Record env : Type := mkEnv {
  disk : gmap string node;
  logged : list log_record
}.

Definition log_to (r : log_record) (e : env) : env :=
  {| disk := disk e; logged := logged e ++ [r] |}.

(** The strict UTF-8 codec: no stray or missing continuation byte, no
    overlong form, no surrogate, nothing above U+10FFFF. *)
Definition is_cont (b : Z) : bool := (128 <=? b) && (b <=? 191).

Fixpoint utf8_valid (bs : list Z) : bool :=
  match bs with
  | [] => true
  | b0 :: r0 =>
      if b0 <? 128 then utf8_valid r0
      else if (194 <=? b0) && (b0 <=? 223) then
        match r0 with
        | b1 :: r1 => is_cont b1 && utf8_valid r1
        | _ => false
        end
      else if (224 <=? b0) && (b0 <=? 239) then
        match r0 with
        | b1 :: b2 :: r2 =>
            (if b0 =? 224 then (160 <=? b1) && (b1 <=? 191)
             else if b0 =? 237 then (128 <=? b1) && (b1 <=? 159)
             else is_cont b1)
            && is_cont b2 && utf8_valid r2
        | _ => false
        end
      else if (240 <=? b0) && (b0 <=? 244) then
        match r0 with
        | b1 :: b2 :: b3 :: r3 =>
            (if b0 =? 240 then (144 <=? b1) && (b1 <=? 191)
             else if b0 =? 244 then (128 <=? b1) && (b1 <=? 143)
             else is_cont b1)
            && is_cont b2 && is_cont b3 && utf8_valid r3
        | _ => false
        end
      else false
  end.

(** Reading in text mode: a carriage return, with the line feed that
    follows it if one does, is read as one line feed. *)
Fixpoint universal_newlines (s : string) : string :=
  match s with
  | EmptyString => EmptyString
  | String c rest =>
      if Ascii.eqb c "013"%char then
        match rest with
        | String c' rest' =>
            if Ascii.eqb c' "010"%char then String "010"%char (universal_newlines rest')
            else String "010"%char (universal_newlines rest)
        | EmptyString => String "010"%char EmptyString
        end
      else String c (universal_newlines rest)
  end.

(** The text a node reads as, when it is a file of UTF-8 text, and the
    text files of a disk. *)
Definition text_of (n : node) : option string :=
  match n with
  | File bytes _ =>
      if utf8_valid (bytes_of bytes) then Some (universal_newlines bytes) else None
  | _ => None
  end.

Definition files (e : env) : gmap string string := omap text_of (disk e).

(** The directories a path leads through, outermost first; the root is
    left out. *)
Fixpoint ancestors (path : string) : list string :=
  match path with
  | EmptyString => []
  | String c rest =>
      let below := map (String c) (ancestors rest) in
      if Ascii.eqb c "/"%char then EmptyString :: below else below
  end.

Definition named_ancestors (path : string) : list string :=
  List.filter (fun a => negb (String.eqb a EmptyString)) (ancestors path).

(** The directory a path names a file in: what stands before the last
    slash, the root for a slash in front, the current directory when
    there is no slash. *)
Definition parent (path : string) : string :=
  match last (ancestors path) with
  | None => "."
  | Some EmptyString => "/"
  | Some dir => dir
  end.

Definition is_file (n : option node) : bool :=
  match n with
  | Some (File _ _) | Some Locked => true
  | _ => false
  end.

(** The path leads through something that is a file. *)
Definition through_file (e : env) (path : string) : bool :=
  existsb (fun a => is_file (disk e !! a)) (named_ancestors path).

(** [Path.read_text("utf-8")]. *)
Definition read_text (e : env) (path : string) : result string :=
  match disk e !! path with
  | Some (File bytes _) =>
      if utf8_valid (bytes_of bytes) then Ok (universal_newlines bytes)
      else Raise UnicodeDecodeError
  | Some Locked => Raise PermissionError
  | Some (Directory _) => Raise IsADirectoryError
  | None =>
      if through_file e path then Raise NotADirectoryError
      else Raise FileNotFoundError
  end.

(** [Path.write_text(data, "utf-8")], where a line ends in a line feed:
    the file is created in its directory, or written over. *)
Definition write_text (path data : string) (e : env) : result env :=
  let written := {| disk := <[path := File data true]> (disk e); logged := logged e |} in
  match disk e !! path with
  | Some (File _ true) => Ok written
  | Some (File _ false) => Raise PermissionError
  | Some Locked => Raise PermissionError
  | Some (Directory _) => Raise IsADirectoryError
  | None =>
      if through_file e path then Raise NotADirectoryError
      else
        match disk e !! parent path with
        | Some (Directory true) => Ok written
        | Some (Directory false) => Raise PermissionError
        | _ => Raise FileNotFoundError
        end
  end.

(** ** Decoding *)

(** What stops [json.loads] on a text: the text is not a JSON document,
    its arrays and objects are nested deeper than the interpreter's
    stack admits, or it holds an integer of more digits than the
    interpreter converts. *)
Inductive json_failure : Type :=
| NotJSON
| TooDeep
| TooManyDigits.

Definition failure_exn (f : json_failure) : exn :=
  match f with
  | NotJSON => JSONDecodeError
  | TooDeep => RecursionError
  | TooManyDigits => ValueError
  end.

Inductive decoded : Type :=
| Decoded (v : pyval)
| Failed (f : json_failure).

Section LoadConfig.

(** The decoder of the json module, as the interpreter at hand runs it. *)
Variable decode : string -> decoded.

Definition json_loads (s : string) : result pyval :=
  match decode s with
  | Decoded v => Ok v
  | Failed f => Raise (failure_exn f)
  end.

(** The body of the [try]. *)
Definition load_config_try (e : env) (config_path : string) : result MDNSConfig :=
  result_bind (read_text e config_path) (fun config_data =>
  result_bind (json_loads config_data) (fun kwargs =>
  MDNSConfig_init kwargs)).

(** [load_config]: the handlers, in the order of the [except] clauses;
    an exception no clause names propagates, and so does one raised
    inside a handler. *)
Definition load_config (e : env) (config_path : string) : result MDNSConfig * env :=
  match load_config_try e config_path with
  | Ok config => (Ok config, e)
  | Raise FileNotFoundError =>
      let config := MDNSConfig_default in
      let config_data := json_dumps (asdict config) 4 in
      match write_text config_path config_data e with
      | Ok e =>
          let e := log_to (WARNING "Config file not found. Created default config.") e in
          (Ok config, e)
      | Raise ex => (Raise ex, e)
      end
  | Raise TypeError | Raise JSONDecodeError =>
      let config := MDNSConfig_default in
      let e := log_to (WARNING "Invalid JSON in config file. Using defaults.") e in
      (Ok config, e)
  | Raise ex => (Raise ex, e)
  end.

End LoadConfig.

(* ===================================================================== *)
(** * Part III: the descriptor built by [main]                            *)
(* ===================================================================== *)

(** The keyword arguments [main] passes to [ServiceInfo]. *)
Record ServiceInfo : Type := mkServiceInfo {
  type_ : pyval;
  si_name : string;
  si_port : pyval;
  si_properties : pyval;
  server : string
}.

Section Main.

(** [str(v)], the conversion an f-string applies to each field. *)
Variable py_str : pyval -> string.
(** [socket.gethostname()]. *)
Variable hostname : string.

Definition service_name (mdns_config : MDNSConfig) : pyval :=
  if py_not (name mdns_config) then PStr hostname else name mdns_config.

Definition service_info (mdns_config : MDNSConfig) : ServiceInfo :=
  {| type_ := type mdns_config;
     si_name := py_str (service_name mdns_config) +:+ "." +:+ py_str (type mdns_config);
     si_port := port mdns_config;
     si_properties := properties mdns_config;
     server := py_str (PStr hostname) +:+ ".local." |}.

(** The arguments of [MDNSManager(service_info, mdns_config.timeout)]. *)
Definition manager_args (mdns_config : MDNSConfig) : ServiceInfo * pyval :=
  (service_info mdns_config, timeout mdns_config).

End Main.

(** A configuration whose fields have their annotated types. *)
Definition is_str (v : pyval) : bool := match v with PStr _ => true | _ => false end.
Definition is_int (v : pyval) : bool := match v with PInt _ => true | _ => false end.
Definition is_dict (v : pyval) : bool := match v with PDict _ => true | _ => false end.
Definition is_number (v : pyval) : bool :=
  match v with PInt _ | PFloat _ => true | _ => false end.

Definition well_typed (c : MDNSConfig) : bool :=
  is_str (type c) && is_str (name c) && is_int (port c)
  && is_dict (properties c) && is_number (timeout c).

(* ===================================================================== *)
(** * Part IV: [MDNSManager], the scheduler and the responder             *)
(* ===================================================================== *)

(** The methods of [Zeroconf] the manager uses.  Each call takes the
    responder to a new state and may raise. *)
Class Responder (Zc : Type) : Type := {
  register_service : ServiceInfo -> Zc -> option exn * Zc;
  unregister_service : ServiceInfo -> Zc -> option exn * Zc;
  zc_close : Zc -> option exn * Zc
}.

Inductive call : Type :=
| RegisterService
| UnregisterService
| Close.

Definition call_eqb (a b : call) : bool :=
  match a, b with
  | RegisterService, RegisterService => true
  | UnregisterService, UnregisterService => true
  | Close, Close => true
  | _, _ => false
  end.

(** What the process does that can be seen from outside, in the order it
    happens: records sent to the log and calls made on the responder. *)
Inductive effect : Type :=
| Logged (r : log_record)
| Called (c : call).

Fixpoint calls_of (t : list effect) : list call :=
  match t with
  | [] => []
  | Called c :: rest => c :: calls_of rest
  | Logged _ :: rest => calls_of rest
  end.

Fixpoint log_of (t : list effect) : list log_record :=
  match t with
  | [] => []
  | Logged r :: rest => r :: log_of rest
  | Called _ :: rest => log_of rest
  end.

(** An entry of [sched.scheduler]'s queue.  The only action ever entered
    is the bound method [_sched_handler]. *)
Inductive action : Type := SchedHandler.

Record Event : Type := mkEvent {
  ev_time : Q;
  ev_priority : Z;
  ev_sequence : nat;
  ev_action : action
}.

Definition Qlt_bool (a b : Q) : bool := negb (Qle_bool b a).

(** Events compare as the tuples (time, priority, sequence). *)
Definition event_lt (a b : Event) : bool :=
  if Qlt_bool (ev_time a) (ev_time b) then true
  else if Qlt_bool (ev_time b) (ev_time a) then false
  else if ev_priority a <? ev_priority b then true
  else if ev_priority b <? ev_priority a then false
  else Nat.ltb (ev_sequence a) (ev_sequence b).

(** The heap, kept as the list of its events in increasing order. *)
Fixpoint heappush (q : list Event) (ev : Event) : list Event :=
  match q with
  | [] => [ev]
  | x :: rest => if event_lt ev x then ev :: x :: rest else x :: heappush rest ev
  end.

(** Everything the manager can observe or change: the clock [time.time]
    reads, the responder, the effects so far, and the scheduler's queue
    with its sequence counter. *)
Record world (Zc : Type) : Type := mkWorld {
  clock : Q;
  zeroconf : Zc;
  trace : list effect;
  queue : list Event;
  sequence : nat
}.
Arguments mkWorld {Zc}.
Arguments clock {Zc}.
Arguments zeroconf {Zc}.
Arguments trace {Zc}.
Arguments queue {Zc}.
Arguments sequence {Zc}.

Definition calls {Zc} (w : world Zc) : list call := calls_of (trace w).
Definition log {Zc} (w : world Zc) : list log_record := log_of (trace w).

Definition with_clock {Zc} (t : Q) (w : world Zc) : world Zc :=
  mkWorld t (zeroconf w) (trace w) (queue w) (sequence w).

Definition with_queue {Zc} (q : list Event) (w : world Zc) : world Zc :=
  mkWorld (clock w) (zeroconf w) (trace w) q (sequence w).

(** Statements: a state transformer that returns or raises. *)
Definition M (Zc A : Type) : Type := world Zc -> result A * world Zc.

Definition ret {Zc A} (a : A) : M Zc A := fun w => (Ok a, w).

Definition bind {Zc A B} (m : M Zc A) (k : A -> M Zc B) : M Zc B :=
  fun w =>
    match m w with
    | (Ok a, w') => k a w'
    | (Raise e, w') => (Raise e, w')
    end.

Declare Scope stmt_scope.
Notation "m1 ;; m2" := (bind m1 (fun _ => m2))
  (at level 100, m2 at level 200, right associativity) : stmt_scope.
Open Scope stmt_scope.

Inductive status : Type :=
| Running
| Returned
| Raised (e : exn).

(** What reaches the process while [run_sched] runs: a turn of the
    scheduler loop, or SIGTERM, whose handler calls [close] and returns
    to the interrupted loop. *)
Inductive input : Type :=
| Turn
| SIGTERM.

Section Manager.

Context {Zc : Type} `{Responder Zc}.

(** [self.info] and [self.sched_timeout], the latter a number of
    seconds. *)
Variable info : ServiceInfo.
Variable sched_timeout : Q.

Definition logger_info (msg : string) : M Zc unit := fun w =>
  (Ok tt, mkWorld (clock w) (zeroconf w) (trace w ++ [Logged (INFO msg)])
                  (queue w) (sequence w)).

(** A call into the responder: it is made, then it returns or raises. *)
Definition invoke (c : call) (f : Zc -> option exn * Zc) : M Zc unit := fun w =>
  let '(r, zc) := f (zeroconf w) in
  let w' := mkWorld (clock w) zc (trace w ++ [Called c]) (queue w) (sequence w) in
  match r with
  | None => (Ok tt, w')
  | Some e => (Raise e, w')
  end.

Definition register : M Zc unit :=
  invoke RegisterService (register_service info).

Definition unregister : M Zc unit :=
  invoke UnregisterService (unregister_service info).

Definition close : M Zc unit :=
  invoke Close zc_close.

(** [scheduler.enter(delay, priority, action)] for a delay that is a
    number of seconds: the event is due at the clock's reading plus the
    delay, taken exactly. *)
Definition enter (delay : Q) (priority : Z) (a : action) : M Zc unit := fun w =>
  let time := (clock w + delay)%Q in
  let event := mkEvent time priority (sequence w) a in
  (Ok tt, mkWorld (clock w) (zeroconf w) (trace w) (heappush (queue w) event)
                  (S (sequence w))).

(** [time.sleep] for a time the system can sleep, on a clock that runs
    only while the process sleeps. *)
Definition sleep (d : Q) : M Zc unit := fun w =>
  (Ok tt, with_clock (clock w + d)%Q w).

Definition heappop : M Zc unit := fun w =>
  (Ok tt, with_queue (tl (queue w)) w).

Definition _sched_handler : M Zc unit :=
  logger_info "Update mDNS registration" ;;
  unregister ;;
  register ;;
  enter sched_timeout 1 SchedHandler.

Definition perform (a : action) : M Zc unit :=
  match a with SchedHandler => _sched_handler end.

(** One turn of the loop of [scheduler.run]: leave when the queue is
    empty, sleep until the first event is due, or pop and run it. *)
Definition run_iteration (w : world Zc) : status * world Zc :=
  match queue w with
  | [] => (Returned, w)
  | ev :: _ =>
      let now := clock w in
      if Qlt_bool now (ev_time ev) then
        (Running, snd (sleep (ev_time ev - now) w))
      else
        match (heappop ;; perform (ev_action ev) ;; sleep 0) w with
        | (Ok _, w') => (Running, w')
        | (Raise e, w') => (Raised e, w')
        end
  end.

(** [scheduler.run()], cut after [fuel] turns of its loop. *)
Fixpoint run (fuel : nat) (w : world Zc) : status * world Zc :=
  match fuel with
  | O => (Running, w)
  | S fuel' =>
      match run_iteration w with
      | (Running, w') => run fuel' w'
      | stopped => stopped
      end
  end.

Definition run_sched (fuel : nat) (w : world Zc) : status * world Zc :=
  match (logger_info "Starting mDNS service scheduler" ;;
         enter 1 0 SchedHandler) w with
  | (Ok _, w') => run fuel w'
  | (Raise e, w') => (Raised e, w')
  end.

(** The loop of [scheduler.run] with signals arriving between its turns. *)
Fixpoint serve (inputs : list input) (w : world Zc) : status * world Zc :=
  match inputs with
  | [] => (Running, w)
  | Turn :: rest =>
      match run_iteration w with
      | (Running, w') => serve rest w'
      | stopped => stopped
      end
  | SIGTERM :: rest =>
      match close w with
      | (Ok _, w') => serve rest w'
      | (Raise e, w') => (Raised e, w')
      end
  end.

(** [main] from [run_sched] on: the loop under the inputs, then, once
    the interpreter leaves, the [close] registered with [atexit]. *)
Definition serve_sched (inputs : list input) (w : world Zc) : status * world Zc :=
  match (logger_info "Starting mDNS service scheduler" ;;
         enter 1 0 SchedHandler) w with
  | (Ok _, w') => serve inputs w'
  | (Raise e, w') => (Raised e, w')
  end.

Definition at_exit (r : status * world Zc) : status * world Zc :=
  match r with
  | (Running, w) => (Running, w)
  | (stopped, w) => (stopped, snd (close w))
  end.

Definition process (inputs : list input) (w : world Zc) : status * world Zc :=
  at_exit (serve_sched inputs w).

(** The refresh cycle invoked [n] times in a row. *)
Fixpoint refresh_cycles (n : nat) : M Zc unit :=
  match n with
  | O => ret tt
  | S n' => _sched_handler ;; refresh_cycles n'
  end.

(** The event a completed cycle enters, and the world [run_sched] hands
    to [scheduler.run]. *)
Definition next_event (w : world Zc) : Event :=
  mkEvent (clock w + sched_timeout)%Q 1 (sequence w) SchedHandler.

Definition entered (w : world Zc) : world Zc :=
  mkWorld (clock w) (zeroconf w)
          (trace w ++ [Logged (INFO "Starting mDNS service scheduler")])
          (heappush (queue w) (mkEvent (clock w + 1)%Q 0 (sequence w) SchedHandler))
          (S (sequence w)).

End Manager.

(** A responder for experiments: its state is the script of what the
    coming calls do, [Some e] making a call raise [e]; past the end of
    the script every call returns. *)
Definition scripted_call (script : list (option exn)) : option exn * list (option exn) :=
  match script with
  | [] => (None, [])
  | r :: rest => (r, rest)
  end.

#[export] Instance scripted : Responder (list (option exn)) := {
  register_service := fun _ => scripted_call;
  unregister_service := fun _ => scripted_call;
  zc_close := scripted_call
}.

(** A responder that cannot fail; it counts the calls it has served. *)
#[export] Instance reliable : Responder nat := {
  register_service := fun _ n => (None, S n);
  unregister_service := fun _ n => (None, S n);
  zc_close := fun n => (None, S n)
}.

Definition start_world {Zc} (zc : Zc) : world Zc :=
  mkWorld 0%Q zc [] [] 0%nat.


(* ===================================================================== *)
(** * Part V: reference decoder and string conversion                     *)
(* ===================================================================== *)

(** [json.loads] with its default arguments, after [json.decoder] and
    [json.scanner], under the interpreter's default limits: used to run
    [load_config] on concrete texts.  The general results quantify over
    the decoder. *)
Module Decoder.

(** [sys.getrecursionlimit()] as the interpreter starts: the nesting
    the scanner admits on an empty stack (the frames in use at the call
    leave a little less), and [sys.get_int_max_str_digits()]. *)
Definition recursion_limit : nat := 1000.
Definition max_str_digits : nat := 4300.

(** What a scanner gives: a value and the text after it, or what
    stopped it. *)
Inductive scan (A : Type) : Type :=
| Scanned (a : A) (rest : string)
| Stopped (f : json_failure).
Arguments Scanned {A} a rest.
Arguments Stopped {A} f.

Definition code (c : ascii) : Z := Z.of_nat (nat_of_ascii c).
Definition chr (n : Z) : ascii := ascii_of_nat (Z.to_nat n).

Definition is_ws (c : ascii) : bool :=
  (code c =? 32) || (code c =? 9) || (code c =? 10) || (code c =? 13).

Definition is_digit (c : ascii) : bool := (48 <=? code c) && (code c <=? 57).

Fixpoint skip_ws (s : string) : string :=
  match s with
  | String c rest => if is_ws c then skip_ws rest else s
  | EmptyString => s
  end.

(** [s[idx:idx+len(p)] == p], and what follows. *)
Fixpoint strip_prefix (p s : string) : option string :=
  match p, s with
  | EmptyString, _ => Some s
  | String a p', String b s' => if Ascii.eqb a b then strip_prefix p' s' else None
  | _, EmptyString => None
  end.

(** ** Numbers *)

Fixpoint take_digits (s : string) : list Z * string :=
  match s with
  | String c rest =>
      if is_digit c then
        let '(ds, r) := take_digits rest in (code c - 48 :: ds, r)
      else ([], s)
  | EmptyString => ([], s)
  end.

Definition Z_of_digits (ds : list Z) : Z :=
  fold_left (fun acc d => 10 * acc + d) ds 0.

(** [NUMBER_RE]: an integer part, then an optional fraction and an
    optional exponent, each taken only when complete.  A number with
    neither is an [int], converted only within the digit limit. *)
Definition match_number (s : string) : option (scan pyval) :=
  let '(neg, s1) :=
    match s with
    | String c rest => if code c =? 45 then (true, rest) else (false, s)
    | EmptyString => (false, s)
    end in
  let integer :=
    match s1 with
    | String c rest =>
        if code c =? 48 then Some ([0], rest)
        else if is_digit c then Some (take_digits s1)
        else None
    | EmptyString => None
    end in
  match integer with
  | None => None
  | Some (ids, s2) =>
      let '(frac, s3) :=
        match s2 with
        | String c rest =>
            if code c =? 46 then
              match take_digits rest with
              | ([], _) => (None, s2)
              | (fds, r) => (Some fds, r)
              end
            else (None, s2)
        | EmptyString => (None, s2)
        end in
      let '(exp, s4) :=
        match s3 with
        | String c rest =>
            if (code c =? 101) || (code c =? 69) then
              let '(eneg, r1) :=
                match rest with
                | String sg r =>
                    if code sg =? 45 then (true, r)
                    else if code sg =? 43 then (false, r)
                    else (false, rest)
                | EmptyString => (false, rest)
                end in
              match take_digits r1 with
              | ([], _) => (None, s3)
              | (eds, r) => (Some (if eneg then - Z_of_digits eds else Z_of_digits eds), r)
              end
            else (None, s3)
        | EmptyString => (None, s3)
        end in
      match frac, exp with
      | None, None =>
          if (max_str_digits <? length ids)%nat then Some (Stopped TooManyDigits)
          else Some (Scanned (PInt (if neg then - Z_of_digits ids else Z_of_digits ids)) s4)
      | _, _ =>
          let fds := match frac with Some fds => fds | None => [] end in
          let e := match exp with Some e => e | None => 0 end in
          Some (Scanned (PFloat (float_of_decimal neg (Z_of_digits (ids ++ fds))
                                                  (e - Z.of_nat (length fds)))) s4)
      end
  end.

(** ** Strings *)

Definition hex_value (c : ascii) : option Z :=
  let n := code c in
  if (48 <=? n) && (n <=? 57) then Some (n - 48)
  else if (97 <=? n) && (n <=? 102) then Some (n - 87)
  else if (65 <=? n) && (n <=? 70) then Some (n - 55)
  else None.

Definition hex4 (a b c d : ascii) : option Z :=
  match hex_value a, hex_value b, hex_value c, hex_value d with
  | Some x, Some y, Some z, Some w => Some (((x * 16 + y) * 16 + z) * 16 + w)
  | _, _, _, _ => None
  end.

(** The UTF-8 bytes of a code point. *)
Definition utf8 (cp : Z) (tail : string) : string :=
  if cp <? 128 then String (chr cp) tail
  else if cp <? 2048 then
    String (chr (192 + Z.shiftr cp 6)) (String (chr (128 + Z.land cp 63)) tail)
  else if cp <? 65536 then
    String (chr (224 + Z.shiftr cp 12))
      (String (chr (128 + Z.land (Z.shiftr cp 6) 63))
         (String (chr (128 + Z.land cp 63)) tail))
  else
    String (chr (240 + Z.shiftr cp 18))
      (String (chr (128 + Z.land (Z.shiftr cp 12) 63))
         (String (chr (128 + Z.land (Z.shiftr cp 6) 63))
            (String (chr (128 + Z.land cp 63)) tail))).

Definition simple_escape (c : ascii) : option Z :=
  let n := code c in
  if n =? 34 then Some 34          (* quote *)
  else if n =? 92 then Some 92     (* backslash *)
  else if n =? 47 then Some 47     (* slash *)
  else if n =? 98 then Some 8      (* b *)
  else if n =? 102 then Some 12    (* f *)
  else if n =? 110 then Some 10    (* n *)
  else if n =? 114 then Some 13    (* r *)
  else if n =? 116 then Some 9     (* t *)
  else None.

(** [py_scanstring] in strict mode, from just after the opening quote. *)
Fixpoint scanstring (s : string) : option (string * string) :=
  match s with
  | EmptyString => None
  | String c rest =>
      if code c =? 34 then Some (EmptyString, rest)
      else if code c =? 92 then
        match rest with
        | EmptyString => None
        | String esc r0 =>
            if code esc =? 117 then
              match r0 with
              | String h1 (String h2 (String h3 (String h4 r4))) =>
                  match hex4 h1 h2 h3 h4 with
                  | None => None
                  | Some uni =>
                      let single :=
                        match scanstring r4 with
                        | Some (str, r) => Some (utf8 uni str, r)
                        | None => None
                        end in
                      if (55296 <=? uni) && (uni <=? 56319) then
                        match r4 with
                        | String b (String u (String g1 (String g2 (String g3 (String g4 r10))))) =>
                            if (code b =? 92) && (code u =? 117) then
                              match hex4 g1 g2 g3 g4 with
                              | None => None
                              | Some uni2 =>
                                  if (56320 <=? uni2) && (uni2 <=? 57343) then
                                    match scanstring r10 with
                                    | Some (str, r) =>
                                        Some (utf8 (65536 + Z.lor (Z.shiftl (uni - 55296) 10)
                                                                  (uni2 - 56320)) str, r)
                                    | None => None
                                    end
                                  else single
                              end
                            else single
                        | _ => single
                        end
                      else single
                  end
              | _ => None
              end
            else
              match simple_escape esc with
              | None => None
              | Some n =>
                  match scanstring r0 with
                  | Some (str, r) => Some (String (chr n) str, r)
                  | None => None
                  end
              end
        end
      else if code c <? 32 then None
      else
        match scanstring rest with
        | Some (str, r) => Some (String c str, r)
        | None => None
        end
  end.

(** ** Values *)

(** [dict(pairs)]: a repeated key keeps its place and takes the later
    value. *)
Fixpoint dict_set (d : list (string * pyval)) (k : string) (v : pyval) :=
  match d with
  | [] => [(k, v)]
  | (k', v') :: rest =>
      if String.eqb k' k then (k', v) :: rest else (k', v') :: dict_set rest k v
  end.

Definition dict (pairs : list (string * pyval)) : list (string * pyval) :=
  fold_left (fun d kv => dict_set d (fst kv) (snd kv)) pairs [].

Definition starts_with (n : Z) (s : string) : option string :=
  match s with
  | String c rest => if code c =? n then Some rest else None
  | EmptyString => None
  end.

(** [scan_once]: [fuel] bounds the length of the text, [room] the
    nesting of arrays and objects still admitted. *)
Fixpoint scan_once (fuel room : nat) (s : string) {struct fuel} : scan pyval :=
  match fuel with
  | O => Stopped NotJSON
  | S fuel' =>
      match s with
      | EmptyString => Stopped NotJSON
      | String c rest =>
          let n := code c in
          if n =? 34 then
            match scanstring rest with
            | Some (str, r) => Scanned (PStr str) r
            | None => Stopped NotJSON
            end
          else if n =? 123 then
            match room with
            | O => Stopped TooDeep
            | S room' =>
                let r := skip_ws rest in
                match starts_with 125 r with
                | Some r' => Scanned (PDict []) r'
                | None =>
                    match starts_with 34 r with
                    | Some r' =>
                        match JSONObject_items fuel' room' r' with
                        | Scanned pairs r'' => Scanned (PDict (dict pairs)) r''
                        | Stopped f => Stopped f
                        end
                    | None => Stopped NotJSON
                    end
                end
            end
          else if n =? 91 then
            match room with
            | O => Stopped TooDeep
            | S room' =>
                let r := skip_ws rest in
                match starts_with 93 r with
                | Some r' => Scanned (PList []) r'
                | None =>
                    match JSONArray_items fuel' room' r with
                    | Scanned values r' => Scanned (PList values) r'
                    | Stopped f => Stopped f
                    end
                end
            end
          else
            match strip_prefix "null" s, strip_prefix "true" s, strip_prefix "false" s with
            | Some r, _, _ => Scanned PNone r
            | _, Some r, _ => Scanned (PBool true) r
            | _, _, Some r => Scanned (PBool false) r
            | None, None, None =>
                match match_number s with
                | Some res => res
                | None =>
                    match strip_prefix "NaN" s, strip_prefix "Infinity" s,
                          strip_prefix "-Infinity" s with
                    | Some r, _, _ => Scanned (PFloat S754_nan) r
                    | _, Some r, _ => Scanned (PFloat (S754_infinity false)) r
                    | _, _, Some r => Scanned (PFloat (S754_infinity true)) r
                    | None, None, None => Stopped NotJSON
                    end
                end
            end
      end
  end

(** The loop of [JSONObject], from just after the quote that opens a key. *)
with JSONObject_items (fuel room : nat) (s : string) {struct fuel}
     : scan (list (string * pyval)) :=
  match fuel with
  | O => Stopped NotJSON
  | S fuel' =>
      match scanstring s with
      | None => Stopped NotJSON
      | Some (key, r0) =>
          match starts_with 58 (skip_ws r0) with
          | None => Stopped NotJSON
          | Some r1 =>
              match scan_once fuel' room (skip_ws r1) with
              | Stopped f => Stopped f
              | Scanned value r2 =>
                  let r3 := skip_ws r2 in
                  match starts_with 125 r3 with
                  | Some r4 => Scanned [(key, value)] r4
                  | None =>
                      match starts_with 44 r3 with
                      | None => Stopped NotJSON
                      | Some r4 =>
                          match starts_with 34 (skip_ws r4) with
                          | None => Stopped NotJSON
                          | Some r5 =>
                              match JSONObject_items fuel' room r5 with
                              | Scanned pairs r6 => Scanned ((key, value) :: pairs) r6
                              | Stopped f => Stopped f
                              end
                          end
                      end
                  end
              end
          end
      end
  end

(** The loop of [JSONArray], from the first character of an item. *)
with JSONArray_items (fuel room : nat) (s : string) {struct fuel}
     : scan (list pyval) :=
  match fuel with
  | O => Stopped NotJSON
  | S fuel' =>
      match scan_once fuel' room s with
      | Stopped f => Stopped f
      | Scanned value r0 =>
          let r1 := skip_ws r0 in
          match starts_with 93 r1 with
          | Some r2 => Scanned [value] r2
          | None =>
              match starts_with 44 r1 with
              | None => Stopped NotJSON
              | Some r2 =>
                  match JSONArray_items fuel' room (skip_ws r2) with
                  | Scanned values r3 => Scanned (value :: values) r3
                  | Stopped f => Stopped f
                  end
              end
          end
      end
  end.

(** [JSONDecoder.decode]: one value, white space around it, nothing else. *)
Definition decode (s : string) : decoded :=
  match scan_once (S (String.length s)) recursion_limit (skip_ws s) with
  | Scanned obj rest =>
      match skip_ws rest with
      | EmptyString => Decoded obj
      | _ => Failed NotJSON
      end
  | Stopped f => Failed f
  end.

End Decoder.



(** [str(v)] and [repr(v)], to run [main] on concrete values.  Characters
    outside ASCII are taken to be printable.  The general results
    quantify over the conversion. *)
Module Str.

Definition contains (n : Z) (s : string) : bool :=
  existsb (Z.eqb n) (bytes_of s).

Definition hex2 (n : Z) : string :=
  "\x" +:+ hex_digit (Z.land (Z.shiftr n 4) 15) +:+ hex_digit (Z.land n 15).

Definition repr_char (quote : Z) (c : ascii) : string :=
  let n := Decoder.code c in
  if (n =? quote) || (n =? 92) then String "\"%char (String c EmptyString)
  else if n =? 9 then "\t"
  else if n =? 10 then "\n"
  else if n =? 13 then "\r"
  else if (n <? 32) || (n =? 127) then hex2 n
  else String c EmptyString.

Definition repr_str (s : string) : string :=
  let quote := if contains 39 s && negb (contains 34 s) then 34 else 39 in
  let q := String (Decoder.chr quote) EmptyString in
  q +:+ String.concat EmptyString (map (repr_char quote) (list_ascii_of_string s)) +:+ q.

Fixpoint repr (v : pyval) {struct v} : string :=
  match v with
  | PNone => "None"
  | PBool true => "True"
  | PBool false => "False"
  | PInt z => NilZero.string_of_int (Z.to_int z)
  | PFloat f => float_repr f
  | PStr s => repr_str s
  | PList l =>
      "[" +:+ (fix items (l : list pyval) : string :=
                 match l with
                 | [] => EmptyString
                 | [x] => repr x
                 | x :: r => repr x +:+ ", " +:+ items r
                 end) l +:+ "]"
  | PDict d =>
      "{" +:+ (fix items (d : list (string * pyval)) : string :=
                 match d with
                 | [] => EmptyString
                 | [(k, x)] => repr_str k +:+ ": " +:+ repr x
                 | (k, x) :: r => repr_str k +:+ ": " +:+ repr x +:+ ", " +:+ items r
                 end) d +:+ "}"
  end.

Definition str (v : pyval) : string :=
  match v with
  | PStr s => s
  | _ => repr v
  end.

End Str.


(* ===================================================================== *)
(** * Part VI: vocabulary of the properties, sample inputs                *)
(* ===================================================================== *)

(** A value [MDNSConfig] can be built from: a mapping all of whose keys
    are field names. *)
Definition keys_are_fields (d : list (string * pyval)) : bool :=
  forallb (fun kv => is_field (fst kv)) d.

Definition expected_shape (v : pyval) : bool :=
  match v with
  | PDict d => keys_are_fields d
  | _ => false
  end.

(** A refresh interval that is a number above zero. *)
Definition positive_number (v : pyval) : bool :=
  match v with
  | PInt z => 0 <? z
  | PFloat f => SFltb (S754_zero false) f
  | _ => false
  end.

(** The effects of one refresh cycle that runs to its end, and of [n]. *)
Definition cycle_trace : list effect :=
  [Logged (INFO "Update mDNS registration");
   Called UnregisterService; Called RegisterService].

Fixpoint cycle_traces (n : nat) : list effect :=
  match n with
  | O => []
  | S n' => cycle_trace ++ cycle_traces n'
  end.

Fixpoint cycles (n : nat) : list call :=
  match n with
  | O => []
  | S n' => UnregisterService :: RegisterService :: cycles n'
  end.

Fixpoint count_calls (c : call) (l : list call) : nat :=
  match l with
  | [] => 0%nat
  | x :: rest => ((if call_eqb c x then 1 else 0) + count_calls c rest)%nat
  end.

(** Sample files. *)
Definition config_path : string := "config.json".

Definition quoted (s : string) : string := dq +:+ s +:+ dq.

(** A writable current directory, with nothing in it or with the
    config file. *)
Definition empty_env : env :=
  {| disk := {[ "." := Directory true ]}; logged := [] |}.

Definition env_with (text : string) : env :=
  {| disk := <[config_path := File text true]> {[ "." := Directory true ]}; logged := [] |}.



(** A file that is not UTF-8: the single byte [0xFF]. *)
Definition undecodable_bytes : string := String "255"%char EmptyString.

Definition broken_text : string := "{" +:+ quoted "port" +:+ ": 9999,".
Definition scenario_text : string :=
  "{" +:+ quoted "port" +:+ ": 9999, " +:+ quoted "timeout" +:+ ": 5}".
Definition negative_timeout_text : string := "{" +:+ quoted "timeout" +:+ ": -5}".
Definition unknown_field_text : string :=
  "{" +:+ quoted "port" +:+ ": 9999, " +:+ quoted "colour" +:+ ": " +:+ quoted "red" +:+ "}".
Definition mismatch_text : string :=
  "{" +:+ quoted "port" +:+ ": " +:+ quoted "http" +:+ "}".

Fixpoint repeat_text (n : nat) (s : string) : string :=
  match n with
  | O => EmptyString
  | S n' => s +:+ repeat_text n' s
  end.

(** An array in an array and so on, 1500 deep, and an integer of 4301
    digits. *)
Definition deep_text : string := repeat_text 1500 "[" +:+ repeat_text 1500 "]".
Definition long_int_text : string := repeat_text 4301 "1".

Definition scenario_config : MDNSConfig :=
  {| type := PStr "_http._tcp.local."; name := PStr EmptyString;
     port := PInt 9999; properties := PDict []; timeout := PInt 5 |}.

(** Sample descriptor, errors and worlds. *)
Definition sample_info : ServiceInfo := service_info Str.str "box1" scenario_config.

Definition name_conflict : exn := OtherError "NonUniqueNameException".

(** The first cycle is due and its [register] is going to raise. *)
Definition due_world : world (list (option exn)) :=
  mkWorld 1%Q [None; Some name_conflict] [] [mkEvent 1%Q 0 0%nat SchedHandler] 1%nat.

Definition failed_world : world (list (option exn)) :=
  mkWorld 1%Q []
          [Logged (INFO "Update mDNS registration");
           Called UnregisterService; Called RegisterService]
          [] 1%nat.

(** ** The rest of [main] and of the module *)

(** [main] up to the call of [MDNSManager]: the configuration is loaded,
    [ServiceInfo] is called on the arguments built from it, and the
    arguments of [MDNSManager] are at hand.  [construct] is what the
    constructor of zeroconf's [ServiceInfo] raises on its arguments, if
    it raises. *)
Definition main_setup (decode : string -> decoded) (py_str : pyval -> string)
    (construct : ServiceInfo -> option exn)
    (hostname : string) (e : env) (path : string)
    : result (ServiceInfo * pyval) * env :=
  match load_config decode e path with
  | (Ok mdns_config, e') =>
      let '(info, interval) := manager_args py_str hostname mdns_config in
      match construct info with
      | None => (Ok (info, interval), e')
      | Some ex => (Raise ex, e')
      end
  | (Raise ex, e') => (Raise ex, e')
  end.

(** Constructors for experiments: one that takes whatever it is given,
    and one that insists on a port that is an integer. *)
Definition lenient (info : ServiceInfo) : option exn := None.

Definition integer_port (info : ServiceInfo) : option exn :=
  if is_int (si_port info) then None else Some TypeError.

(** The descriptor of the all-default configuration on a host. *)
Definition default_service_info (hostname : string) : ServiceInfo :=
  {| type_ := PStr "_http._tcp.local.";
     si_name := hostname +:+ "._http._tcp.local.";
     si_port := PInt 8080;
     si_properties := PDict [];
     server := hostname +:+ ".local." |}.

(** The value a field takes from a JSON object: the object's entry, or
    the field's default. *)
Definition entry_or_default (d : list (string * pyval)) (k : string) : option pyval :=
  match dict_get d k with
  | Some v => Some v
  | None => get_field MDNSConfig_default k
  end.

(** The values of [name] that [not name] takes for empty, as JSON can
    give them. *)
Definition falsy_names : list pyval :=
  [PNone; PBool false; PInt 0; PFloat (S754_zero false); PFloat (S754_zero true);
   PStr EmptyString; PList []; PDict []].

(** What reaches the process at the top level: an input of the scheduler
    loop, or the interrupt of the keyboard, which raises
    [KeyboardInterrupt] in the main thread. *)
Inductive signal : Type :=
| Deliver (i : input)
| SIGINT.

Definition KeyboardInterrupt : exn := OtherError "KeyboardInterrupt".

Definition is_KeyboardInterrupt (e : exn) : bool :=
  match e with
  | OtherError cls => String.eqb cls "KeyboardInterrupt"
  | _ => false
  end.

Section Toplevel.

Context {Zc : Type} `{Responder Zc}.
Variable info : ServiceInfo.
Variable sched_timeout : Q.

(** [scheduler.run] under the signals. *)
Fixpoint main_loop (signals : list signal) (w : world Zc) : status * world Zc :=
  match signals with
  | [] => (Running, w)
  | Deliver i :: rest =>
      match serve info sched_timeout [i] w with
      | (Running, w') => main_loop rest w'
      | stopped => stopped
      end
  | SIGINT :: _ => (Raised KeyboardInterrupt, w)
  end.

(** The guarded call of [main] at the end of the module, from
    [run_sched] on: [KeyboardInterrupt] is passed over, anything else
    propagates, and the [close] registered with [atexit] runs when the
    interpreter leaves. *)
Definition guarded_main (signals : list signal) (w : world Zc) : status * world Zc :=
  let ran :=
    match (logger_info "Starting mDNS service scheduler" ;;
           enter 1 0 SchedHandler) w with
    | (Ok _, w') => main_loop signals w'
    | (Raise e, w') => (Raised e, w')
    end in
  at_exit
    match ran with
    | (Raised e, w') => if is_KeyboardInterrupt e then (Returned, w') else (Raised e, w')
    | other => other
    end.

End Toplevel.

(** A configuration none of whose fields has its default. *)
Definition custom_config : MDNSConfig :=
  {| type := PStr "_ipp._tcp.local."; name := PStr "printer";
     port := PInt 631; properties := PDict [("path", PStr "/ipp")];
     timeout := PFloat (float_of_decimal false 25 (-1)) |}.

Definition custom_text : string := json_dumps (asdict custom_config) 4.

(** More sample files. *)
Definition null_name_text : string := "{" +:+ quoted "name" +:+ ": null}".
Definition reordered_text : string :=
  "{" +:+ quoted "timeout" +:+ ": 5, " +:+ quoted "port" +:+ ": 9999}".

(** * Part VII: properties                                                *)
(* ===================================================================== *)

(** ** Configuration loading *)

Lemma json_dumps_default :
  json_dumps (asdict MDNSConfig_default) 4 = default_config_text.
Proof. vm_compute. reflexivity. Qed.


(** Case analysis on whether a key is one of the five field names. *)
Ltac on_field k tac :=
  destruct (String.eqb_spec k "type") as [->|?]; [tac|];
  destruct (String.eqb_spec k "name") as [->|?]; [tac|];
  destruct (String.eqb_spec k "port") as [->|?]; [tac|];
  destruct (String.eqb_spec k "properties") as [->|?]; [tac|];
  destruct (String.eqb_spec k "timeout") as [->|?]; [tac|].

Lemma is_field_cases k :
  is_field k = true ->
  k = "type" \/ k = "name" \/ k = "port" \/ k = "properties" \/ k = "timeout".
Proof.
  unfold is_field, field_names. simpl.
  on_field k ltac:(intros _; auto 10).
  simpl. intros Hk. discriminate Hk.
Qed.

Lemma set_field_unknown c k v :
  is_field k = false -> set_field c k v = Raise TypeError.
Proof.
  unfold is_field, field_names, set_field. simpl.
  on_field k ltac:(intros Hk; discriminate Hk).
  reflexivity.
Qed.

Lemma set_field_known c k v :
  is_field k = true ->
  exists c', set_field c k v = Ok c' /\
    forall k0, is_field k0 = true ->
      get_field c' k0 = if String.eqb k k0 then Some v else get_field c k0.
Proof.
  intros Hk.
  destruct (is_field_cases k Hk) as [->|[->|[->|[->| ->]]]];
    (eexists; split; [reflexivity|]);
    intros k0 Hk0;
    destruct (is_field_cases k0 Hk0) as [->|[->|[->|[->| ->]]]];
    reflexivity.
Qed.

Lemma bind_kwargs_unknown d : forall c,
  keys_are_fields d = false -> bind_kwargs d c = Raise TypeError.
Proof.
  induction d as [|[k v] rest IH]; intros c Hd; [discriminate|].
  simpl in *. destruct (is_field k) eqn:Hk.
  - destruct (set_field_known c k v Hk) as (c1 & -> & _). simpl. auto.
  - rewrite set_field_unknown; auto.
Qed.

Lemma bind_kwargs_known d : forall c,
  keys_are_fields d = true ->
  exists c', bind_kwargs d c = Ok c' /\
    forall k, is_field k = true ->
      get_field c' k = match dict_get d k with
                       | Some v => Some v
                       | None => get_field c k
                       end.
Proof.
  induction d as [|[k v] rest IH]; intros c Hd.
  - exists c. split; reflexivity.
  - simpl in Hd. apply andb_prop in Hd as [Hk Hrest].
    destruct (set_field_known c k v Hk) as (c1 & E1 & G1).
    destruct (IH c1 Hrest) as (c' & E' & G').
    exists c'. split.
    + simpl. rewrite E1. exact E'.
    + intros k0 Hk0. rewrite (G' k0 Hk0). simpl.
      destruct (dict_get rest k0); [reflexivity|].
      rewrite (G1 k0 Hk0). destruct (String.eqb k k0); reflexivity.
Qed.

Lemma MDNSConfig_init_wrong_shape v :
  expected_shape v = false -> MDNSConfig_init v = Raise TypeError.
Proof.
  destruct v; simpl; try reflexivity. apply bind_kwargs_unknown.
Qed.

Lemma MDNSConfig_init_raises v e :
  MDNSConfig_init v = Raise e -> e = TypeError /\ expected_shape v = false.
Proof.
  intros Hr. destruct (expected_shape v) eqn:Hs.
  - destruct v; try discriminate. simpl in Hs.
    destruct (bind_kwargs_known d MDNSConfig_default Hs) as (c & Hc & _).
    simpl in Hr. congruence.
  - rewrite (MDNSConfig_init_wrong_shape v Hs) in Hr. split; congruence.
Qed.

(** ** The file store *)

Lemma lookup_files (e : env) (path text : string) :
  files e !! path = Some text <->
  exists bytes w, disk e !! path = Some (File bytes w) /\
                utf8_valid (bytes_of bytes) = true /\
                text = universal_newlines bytes.
Proof.
  unfold files. rewrite lookup_omap.
  destruct (disk e !! path) as [[bytes w| |w]|]; simpl.
  - destruct (utf8_valid (bytes_of bytes)) eqn:Hv.
    + split.
      * intros [= <-]. exists bytes, w. auto.
      * intros (b & w' & [= <- _] & _ & ->). reflexivity.
    + split; [discriminate|]. intros (b & w' & [= <- _] & Hv' & _). congruence.
  - split; [discriminate|]. intros (b & w' & Hb & _). discriminate Hb.
  - split; [discriminate|]. intros (b & w' & Hb & _). discriminate Hb.
  - split; [discriminate|]. intros (b & w' & Hb & _). discriminate Hb.
Qed.

Lemma read_text_files (e : env) (path text : string) :
  files e !! path = Some text -> read_text e path = Ok text.
Proof.
  intros Hf. apply lookup_files in Hf as (bytes & w & Hd & Hv & ->).
  unfold read_text. rewrite Hd, Hv. reflexivity.
Qed.

Lemma read_text_not_found (e : env) (path : string) :
  read_text e path = Raise FileNotFoundError <->
  disk e !! path = None /\ through_file e path = false.
Proof.
  unfold read_text. destruct (disk e !! path) as [[bytes w| |w]|].
  - destruct (utf8_valid (bytes_of bytes)); split; try discriminate;
      intros [Hd _]; discriminate Hd.
  - split; [discriminate|]. intros [Hd _]. discriminate Hd.
  - split; [discriminate|]. intros [Hd _]. discriminate Hd.
  - destruct (through_file e path); split; try discriminate; auto.
    intros [_ Ht]. discriminate Ht.
Qed.



Section LoadConfigFacts.

Variable decode : string -> decoded.

(** The [try] body on a file of text. *)
Lemma load_config_try_present e path text :
  files e !! path = Some text ->
  load_config_try decode e path =
    match decode text with
    | Decoded v => MDNSConfig_init v
    | Failed f => Raise (failure_exn f)
    end.
Proof.
  intros Hf. unfold load_config_try, json_loads.
  rewrite (read_text_files e path text Hf). simpl.
  destruct (decode text); reflexivity.
Qed.

(** [FileNotFoundError] comes from [read_text] alone. *)
Lemma load_config_try_not_found e path :
  load_config_try decode e path = Raise FileNotFoundError <->
  read_text e path = Raise FileNotFoundError.
Proof.
  unfold load_config_try, json_loads.
  destruct (read_text e path) as [text|ex]; simpl.
  - split; [|discriminate]. destruct (decode text) as [v|f]; simpl.
    + intros Hr. apply MDNSConfig_init_raises in Hr as [Hr _]. discriminate Hr.
    + destruct f; discriminate.
  - split; intros [= ->]; reflexivity.
Qed.

Lemma load_config_present_invalid e path text :
  files e !! path = Some text ->
  (decode text = Failed NotJSON \/
   exists v, decode text = Decoded v /\ expected_shape v = false) ->
  load_config decode e path =
    (Ok MDNSConfig_default,
     log_to (WARNING "Invalid JSON in config file. Using defaults.") e).
Proof.
  intros Hf Hbad. unfold load_config.
  rewrite (load_config_try_present e path text Hf).
  destruct Hbad as [-> | (v & -> & Hs)]; [reflexivity|].
  rewrite (MDNSConfig_init_wrong_shape v Hs). reflexivity.
Qed.

Lemma load_config_present_valid e path text d :
  files e !! path = Some text ->
  decode text = Decoded (PDict d) ->
  keys_are_fields d = true ->
  exists c, load_config decode e path = (Ok c, e) /\
    forall k, is_field k = true ->
      get_field c k = match dict_get d k with
                      | Some v => Some v
                      | None => get_field MDNSConfig_default k
                      end.
Proof.
  intros Hf Hd Hk. unfold load_config.
  rewrite (load_config_try_present e path text Hf), Hd. simpl.
  destruct (bind_kwargs_known d MDNSConfig_default Hk) as (c & -> & G).
  exists c. split; [reflexivity | exact G].
Qed.

(** The handler of [FileNotFoundError]: its write returns or raises. *)
Lemma load_config_not_found e path :
  read_text e path = Raise FileNotFoundError ->
  load_config decode e path =
    match write_text path default_config_text e with
    | Ok e' =>
        (Ok MDNSConfig_default,
         log_to (WARNING "Config file not found. Created default config.") e')
    | Raise ex => (Raise ex, e)
    end.
Proof.
  intros Hr. apply load_config_try_not_found in Hr.
  unfold load_config. rewrite Hr, json_dumps_default. reflexivity.
Qed.

Lemma load_config_missing e path :
  disk e !! path = None ->
  through_file e path = false ->
  disk e !! parent path = Some (Directory true) ->
  load_config decode e path =
    (Ok MDNSConfig_default,
     log_to (WARNING "Config file not found. Created default config.")
            {| disk := <[path := File default_config_text true]> (disk e);
               logged := logged e |}).
Proof.
  intros Hd Ht Hp. rewrite load_config_not_found.
  - unfold write_text. rewrite Hd, Ht, Hp. reflexivity.
  - apply read_text_not_found. auto.
Qed.

(** The disk after [load_config]: as it was, or with the default file
    at the path, read having raised [FileNotFoundError]. *)
Lemma load_config_disk e path :
  disk (snd (load_config decode e path)) = disk e \/
  (read_text e path = Raise FileNotFoundError /\
   disk (snd (load_config decode e path))
     = <[path := File default_config_text true]> (disk e)).
Proof.
  destruct (load_config_try decode e path) as [c|ex] eqn:Htry.
  - left. unfold load_config. rewrite Htry. reflexivity.
  - destruct ex as [| | |cls];
      try (left; unfold load_config; rewrite Htry; reflexivity).
    apply load_config_try_not_found in Htry.
    rewrite (load_config_not_found e path Htry).
    unfold write_text.
    destruct (disk e !! path) as [[bytes [|]| |w]|]; auto.
    destruct (through_file e path); auto.
    destruct (disk e !! parent path) as [[bytes w| |[|]]|]; auto.
Qed.

End LoadConfigFacts.




(** Where the handler of [TypeError] and [JSONDecodeError] applies: when
    the file is text and the text is not a JSON document, or is a JSON
    value [MDNSConfig] cannot be built from (not an object, or an object
    with a key that is not a field), [load_config] returns the
    all-default configuration and logs one warning; the disk is as it
    was. *)
Lemma load_config_invalid_json_defaults
    (decode : string -> decoded) (e : env) (path text : string) :
  files e !! path = Some text ->
  (decode text = Failed NotJSON \/
   exists v, decode text = Decoded v /\ expected_shape v = false) ->
  fst (load_config decode e path) = Ok MDNSConfig_default /\
  logged (snd (load_config decode e path))
    = logged e ++ [WARNING "Invalid JSON in config file. Using defaults."] /\
  disk (snd (load_config decode e path)) = disk e.
Proof.
  intros Hf Hbad. rewrite (load_config_present_invalid decode e path text Hf Hbad).
  repeat split.
Qed.

Example load_config_broken_text_defaults :
  fst (load_config Decoder.decode (env_with broken_text) config_path) = Ok MDNSConfig_default /\
  logged (snd (load_config Decoder.decode (env_with broken_text) config_path))
    = [WARNING "Invalid JSON in config file. Using defaults."] /\
  disk (snd (load_config Decoder.decode (env_with broken_text) config_path))
    = disk (env_with broken_text).
Proof.
  apply (load_config_invalid_json_defaults Decoder.decode (env_with broken_text)
           config_path broken_text).
  - vm_compute. reflexivity.
  - left. vm_compute. reflexivity.
Qed.

(** A JSON document that is not an object goes the same way. *)
Example load_config_array_defaults :
  Decoder.decode "[1, 2]" = Decoded (PList [PInt 1; PInt 2]) /\
  load_config Decoder.decode (env_with "[1, 2]") config_path
    = (Ok MDNSConfig_default,
       log_to (WARNING "Invalid JSON in config file. Using defaults.") (env_with "[1, 2]")).
Proof.
  split; [vm_compute; reflexivity|].
  apply (load_config_present_invalid Decoder.decode (env_with "[1, 2]") config_path "[1, 2]").
  - vm_compute. reflexivity.
  - right. exists (PList [PInt 1; PInt 2]). split; vm_compute; reflexivity.
Qed.

(** What the decoder raises besides [JSONDecodeError] no handler
    catches. *)
Lemma load_config_decoder_error
    (decode : string -> decoded) (e : env) (path text : string) (f : json_failure) :
  files e !! path = Some text ->
  decode text = Failed f ->
  f <> NotJSON ->
  load_config decode e path = (Raise (failure_exn f), e).
Proof.
  intros Hf Hd Hne. unfold load_config.
  rewrite (load_config_try_present decode e path text Hf), Hd.
  destruct f; [congruence | reflexivity | reflexivity].
Qed.

Example load_config_deep_nesting_raises :
  load_config Decoder.decode (env_with deep_text) config_path
    = (Raise RecursionError, env_with deep_text).
Proof.
  apply (load_config_decoder_error Decoder.decode (env_with deep_text) config_path
           deep_text TooDeep).
  - vm_compute. reflexivity.
  - vm_compute. reflexivity.
  - discriminate.
Qed.

Example load_config_long_integer_raises :
  load_config Decoder.decode (env_with long_int_text) config_path
    = (Raise ValueError, env_with long_int_text).
Proof.
  apply (load_config_decoder_error Decoder.decode (env_with long_int_text) config_path
           long_int_text TooManyDigits).
  - vm_compute. reflexivity.
  - vm_compute. reflexivity.
  - discriminate.
Qed.

(** C6 (where the code departs from it).  A config file whose bytes are
    not UTF-8 holds no valid JSON, yet [load_config] neither returns the
    defaults nor logs the warning: [read_text] raises
    [UnicodeDecodeError], which neither handler names, so the error
    leaves [load_config]; nothing is logged or written. *)
Theorem undecodable_file_raises
    (decode : string -> decoded) (e : env) (path bytes : string) (writable : bool) :
  disk e !! path = Some (File bytes writable) ->
  utf8_valid (bytes_of bytes) = false ->
  read_text e path = Raise UnicodeDecodeError /\
  load_config decode e path = (Raise UnicodeDecodeError, e).
Proof.
  intros Hd Hv.
  assert (Hr : read_text e path = Raise UnicodeDecodeError).
  { unfold read_text. rewrite Hd, Hv. reflexivity. }
  split; [exact Hr|].
  unfold load_config, load_config_try. rewrite Hr. reflexivity.
Qed.

Lemma undecodable_file_raises_witness :
  read_text (env_with undecodable_bytes) config_path = Raise UnicodeDecodeError /\
  load_config Decoder.decode (env_with undecodable_bytes) config_path
    = (Raise UnicodeDecodeError, env_with undecodable_bytes).
Proof.
  apply (undecodable_file_raises Decoder.decode (env_with undecodable_bytes)
           config_path undecodable_bytes true).
  - vm_compute. reflexivity.
  - vm_compute. reflexivity.
Defined.

(** C10.  [load_config] leaves an existing config file as it is, whatever
    it holds; the file store changes only when reading the file raised
    [FileNotFoundError], and then only at the config path.  This holds
    of the text files and of the disk as a whole. *)
Theorem load_config_writes_only_missing_file
    (decode : string -> decoded) (e : env) (path : string) :
  (forall text, files e !! path = Some text ->
     files (snd (load_config decode e path)) = files e) /\
  (files (snd (load_config decode e path)) <> files e ->
     read_text e path = Raise FileNotFoundError /\
     load_config_try decode e path = Raise FileNotFoundError) /\
  (forall other, other <> path ->
     files (snd (load_config decode e path)) !! other = files e !! other) /\
  (forall n, disk e !! path = Some n ->
     disk (snd (load_config decode e path)) = disk e) /\
  (disk (snd (load_config decode e path)) <> disk e ->
     read_text e path = Raise FileNotFoundError) /\
  (forall other, other <> path ->
     disk (snd (load_config decode e path)) !! other = disk e !! other).
Proof.
  pose proof (load_config_disk decode e path) as Hdisk.
  assert (Hsame : disk (snd (load_config decode e path)) = disk e ->
                  files (snd (load_config decode e path)) = files e).
  { intros E. unfold files. rewrite E. reflexivity. }
  assert (Hexists : forall n, disk e !! path = Some n ->
                      disk (snd (load_config decode e path)) = disk e).
  { intros n Hn. destruct Hdisk as [E | [Hr _]]; [exact E|].
    apply read_text_not_found in Hr as [Hnone _]. congruence. }
  split; [|split; [|split; [|split; [|split]]]].
  - intros text Hf. apply lookup_files in Hf as (bytes & w & Hd & _).
    apply Hsame. apply (Hexists _ Hd).
  - intros Hchanged. destruct Hdisk as [E | [Hr _]].
    + exfalso. apply Hchanged. apply Hsame. exact E.
    + split; [exact Hr|]. apply load_config_try_not_found. exact Hr.
  - intros other Hne. destruct Hdisk as [E | [_ E]].
    + rewrite (Hsame E). reflexivity.
    + unfold files. rewrite E, !lookup_omap, lookup_insert_ne by congruence.
      reflexivity.
  - exact Hexists.
  - intros Hchanged. destruct Hdisk as [E | [Hr _]]; [contradiction | exact Hr].
  - intros other Hne. destruct Hdisk as [E | [_ E]]; rewrite E; [reflexivity|].
    apply lookup_insert_ne. congruence.
Qed.


(** C8 (as the code has it).  For a config file holding a JSON object of
    declared fields, the refresh interval [load_config] returns is the
    object's [timeout] entry exactly as decoded, whatever its sign or
    type, and 60 when the object has no such entry: no value is rejected
    or clamped, and [main] hands it to [MDNSManager] unchanged. *)
Theorem timeout_returned_verbatim
    (decode : string -> decoded) (py_str : pyval -> string)
    (hostname : string) (e : env) (path text : string) (d : list (string * pyval)) :
  files e !! path = Some text ->
  decode text = Decoded (PDict d) ->
  keys_are_fields d = true ->
  exists c, load_config decode e path = (Ok c, e) /\
    timeout c = match dict_get d "timeout" with
                | Some v => v
                | None => PInt 60
                end /\
    snd (manager_args py_str hostname c) = timeout c.
Proof.
  intros Hf Hd Hk.
  destruct (load_config_present_valid decode e path text d Hf Hd Hk) as (c & Hc & G).
  exists c. split; [exact Hc|]. split; [|reflexivity].
  specialize (G "timeout" eq_refl).
  change (get_field c "timeout") with (Some (timeout c)) in G.
  change (get_field MDNSConfig_default "timeout") with (Some (PInt 60)) in G.
  destruct (dict_get d "timeout"); congruence.
Qed.

Lemma timeout_returned_verbatim_witness :
  exists c,
    load_config Decoder.decode (env_with negative_timeout_text) config_path
      = (Ok c, env_with negative_timeout_text) /\
    timeout c = PInt (-5) /\
    snd (manager_args Str.str "box1" c) = timeout c.
Proof.
  apply (timeout_returned_verbatim Decoder.decode Str.str "box1"
           (env_with negative_timeout_text) config_path negative_timeout_text
           [("timeout", PInt (-5))]).
  - vm_compute. reflexivity.
  - vm_compute. reflexivity.
  - reflexivity.
Defined.

(** C8, refuted as stated: the file [{"timeout": -5}] loads with a refresh
    interval of -5, which is not above zero, and [main] passes it on. *)
Lemma timeout_not_validated :
  fst (load_config Decoder.decode (env_with negative_timeout_text) config_path)
    = Ok {| type := PStr "_http._tcp.local."; name := PStr EmptyString;
            port := PInt 8080; properties := PDict []; timeout := PInt (-5) |} /\
  match fst (load_config Decoder.decode (env_with negative_timeout_text) config_path) with
  | Ok c => positive_number (timeout c) = false /\
            snd (manager_args Str.str "box1" c) = PInt (-5)
  | Raise _ => False
  end.
Proof. split; vm_compute; auto. Qed.

(** C9 (as the code has it).  For a config file holding a JSON object:
    when some key is not a declared field the whole object is discarded,
    the warning is logged and the all-default configuration is returned;
    when every key is a declared field, each field takes its entry
    exactly as decoded, whatever the entry's JSON type, and its default
    when the object has no such entry. *)
Theorem object_fields_all_or_nothing
    (decode : string -> decoded) (e : env) (path text : string)
    (d : list (string * pyval)) :
  files e !! path = Some text ->
  decode text = Decoded (PDict d) ->
  if keys_are_fields d then
    exists c, load_config decode e path = (Ok c, e) /\
      forall k, is_field k = true ->
        get_field c k = match dict_get d k with
                        | Some v => Some v
                        | None => get_field MDNSConfig_default k
                        end
  else
    load_config decode e path =
      (Ok MDNSConfig_default,
       log_to (WARNING "Invalid JSON in config file. Using defaults.") e).
Proof.
  intros Hf Hd. destruct (keys_are_fields d) eqn:Hk.
  - exact (load_config_present_valid decode e path text d Hf Hd Hk).
  - apply (load_config_present_invalid decode e path text Hf).
    right. exists (PDict d). split; [exact Hd | exact Hk].
Qed.

Lemma object_fields_all_or_nothing_witness :
  exists c,
    load_config Decoder.decode (env_with mismatch_text) config_path
      = (Ok c, env_with mismatch_text) /\
    forall k, is_field k = true ->
      get_field c k = match dict_get [("port", PStr "http")] k with
                      | Some v => Some v
                      | None => get_field MDNSConfig_default k
                      end.
Proof.
  apply (object_fields_all_or_nothing Decoder.decode (env_with mismatch_text)
           config_path mismatch_text [("port", PStr "http")]).
  - vm_compute. reflexivity.
  - vm_compute. reflexivity.
Defined.

(** C9, refuted as stated: an object with the unknown key [colour] loses
    its [port] entry 9999 to the default 8080, and the text given for the
    integer field [port] is returned as the port. *)
Lemma unknown_field_discards_object_and_mismatch_kept :
  Decoder.decode unknown_field_text
    = Decoded (PDict [("port", PInt 9999); ("colour", PStr "red")]) /\
  fst (load_config Decoder.decode (env_with unknown_field_text) config_path)
    = Ok MDNSConfig_default /\
  port MDNSConfig_default = PInt 8080 /\
  logged (snd (load_config Decoder.decode (env_with unknown_field_text) config_path))
    = [WARNING "Invalid JSON in config file. Using defaults."] /\
  Decoder.decode mismatch_text = Decoded (PDict [("port", PStr "http")]) /\
  fst (load_config Decoder.decode (env_with mismatch_text) config_path)
    = Ok {| type := PStr "_http._tcp.local."; name := PStr EmptyString;
            port := PStr "http"; properties := PDict []; timeout := PInt 60 |} /\
  logged (snd (load_config Decoder.decode (env_with mismatch_text) config_path)) = [].
Proof. repeat split; vm_compute; reflexivity. Qed.

(** ** The descriptor *)

Lemma load_scenario :
  fst (load_config Decoder.decode (env_with scenario_text) config_path) = Ok scenario_config.
Proof. vm_compute. reflexivity. Qed.

(** C7.  For a configuration whose fields have their declared types,
    the instance name is the host name when [name] is empty and [name]
    itself otherwise; the registered name is that name, a dot and the
    service type, and the port is the configured port. *)
Theorem service_name_from_config
    (py_str : pyval -> string) (hostname : string) (c : MDNSConfig) :
  (forall s, py_str (PStr s) = s) ->
  well_typed c = true ->
  exists n t,
    name c = PStr n /\ type c = PStr t /\
    service_name hostname c = PStr (if String.eqb n EmptyString then hostname else n) /\
    si_name (service_info py_str hostname c)
      = (if String.eqb n EmptyString then hostname else n) +:+ "." +:+ t /\
    si_port (service_info py_str hostname c) = port c.
Proof.
  intros Hstr Hty. unfold well_typed in Hty.
  destruct (type c) as [| | | |t| |] eqn:Ht; try discriminate Hty.
  destruct (name c) as [| | | |n| |] eqn:Hn; try discriminate Hty.
  exists n, t.
  assert (Hs : service_name hostname c
               = PStr (if String.eqb n EmptyString then hostname else n)).
  { unfold service_name, py_not. rewrite Hn. simpl.
    destruct (String.eqb n EmptyString); reflexivity. }
  repeat split; try exact Hs.
  unfold service_info. simpl. rewrite Hs, Ht, !Hstr. reflexivity.
Qed.

Lemma service_name_from_config_witness :
  fst (load_config Decoder.decode (env_with scenario_text) config_path) = Ok scenario_config /\
  exists n t,
    name scenario_config = PStr n /\ type scenario_config = PStr t /\
    service_name "box1" scenario_config
      = PStr (if String.eqb n EmptyString then "box1" else n) /\
    si_name (service_info Str.str "box1" scenario_config)
      = (if String.eqb n EmptyString then "box1" else n) +:+ "." +:+ t /\
    si_port (service_info Str.str "box1" scenario_config) = port scenario_config.
Proof.
  split; [exact load_scenario|].
  apply (service_name_from_config Str.str "box1" scenario_config).
  - intros s. reflexivity.
  - reflexivity.
Defined.

(** The scenario of the specification, and a configured name. *)
Example scenario_descriptor :
  si_name (service_info Str.str "box1" scenario_config) = "box1._http._tcp.local." /\
  si_port (service_info Str.str "box1" scenario_config) = PInt 9999 /\
  snd (manager_args Str.str "box1" scenario_config) = PInt 5.
Proof. repeat split. Qed.

Example configured_name_is_used :
  si_name (service_info Str.str "box1"
             {| type := PStr "_ipp._tcp.local."; name := PStr "printer";
                port := PInt 631; properties := PDict []; timeout := PInt 60 |})
    = "printer._ipp._tcp.local.".
Proof. reflexivity. Qed.

(** ** The refresh cycle and the scheduler *)
(** ** The refresh cycle and the scheduler *)

Lemma calls_of_app (t1 t2 : list effect) :
  calls_of (t1 ++ t2) = calls_of t1 ++ calls_of t2.
Proof.
  induction t1 as [|[r|c] t1 IH]; simpl; [reflexivity | exact IH | now rewrite IH].
Qed.

Lemma log_of_app (t1 t2 : list effect) :
  log_of (t1 ++ t2) = log_of t1 ++ log_of t2.
Proof.
  induction t1 as [|[r|c] t1 IH]; simpl; [reflexivity | now rewrite IH | exact IH].
Qed.

Lemma calls_of_cycle_traces (n : nat) : calls_of (cycle_traces n) = cycles n.
Proof. induction n as [|n IH]; simpl; [reflexivity | now rewrite IH]. Qed.

Lemma log_of_cycle_traces (n : nat) :
  log_of (cycle_traces n) = repeat (INFO "Update mDNS registration") n.
Proof. induction n as [|n IH]; simpl; [reflexivity | now rewrite IH]. Qed.

Lemma count_unregister_cycles (n : nat) : count_calls UnregisterService (cycles n) = n.
Proof. induction n as [|n IH]; simpl; [reflexivity | now rewrite IH]. Qed.

Lemma count_register_cycles (n : nat) : count_calls RegisterService (cycles n) = n.
Proof. induction n as [|n IH]; simpl; [reflexivity | now rewrite IH]. Qed.

Lemma count_close_cycles (n : nat) : count_calls Close (cycles n) = 0%nat.
Proof. induction n as [|n IH]; simpl; [reflexivity | exact IH]. Qed.

Lemma length_cycles (n : nat) : length (cycles n) = (2 * n)%nat.
Proof. induction n as [|n IH]; simpl; [reflexivity | rewrite IH; lia]. Qed.

Lemma cycles_alternate (n : nat) : forall i, (i < n)%nat ->
  cycles n !! (2 * i)%nat = Some UnregisterService /\
  cycles n !! (2 * i + 1)%nat = Some RegisterService.
Proof.
  induction n as [|n IH]; intros i Hi; [lia|].
  destruct i as [|i].
  - split; reflexivity.
  - replace (2 * S i)%nat with (S (S (2 * i))) by lia.
    replace (S (S (2 * i)) + 1)%nat with (S (S (2 * i + 1))) by lia.
    simpl. apply IH. lia.
Qed.

Lemma Qlt_bool_true (a b : Q) : Qlt_bool a b = true <-> (a < b)%Q.
Proof.
  unfold Qlt_bool. rewrite negb_true_iff, <- not_true_iff_false, Qle_bool_iff.
  split; [apply Qnot_le_lt | apply Qlt_not_le].
Qed.

Lemma Qlt_bool_false (a b : Q) : Qlt_bool a b = false <-> (b <= a)%Q.
Proof. unfold Qlt_bool. rewrite negb_false_iff. apply Qle_bool_iff. Qed.

Section ManagerFacts.

Context {Zc : Type} `{Responder Zc}.
Variable info : ServiceInfo.
Variable sched_timeout : Q.

(** The three ways through [_sched_handler]. *)
Lemma sched_handler_cases (w : world Zc) :
  let t := trace w ++ [Logged (INFO "Update mDNS registration")] in
  let u := unregister_service info (zeroconf w) in
  let r := register_service info (snd u) in
  _sched_handler info sched_timeout w =
    match fst u with
    | Some e =>
        (Raise e, mkWorld (clock w) (snd u) (t ++ [Called UnregisterService])
                          (queue w) (sequence w))
    | None =>
        match fst r with
        | Some e =>
            (Raise e, mkWorld (clock w) (snd r)
                              ((t ++ [Called UnregisterService]) ++ [Called RegisterService])
                              (queue w) (sequence w))
        | None =>
            (Ok tt, mkWorld (clock w) (snd r)
                            ((t ++ [Called UnregisterService]) ++ [Called RegisterService])
                            (heappush (queue w) (next_event sched_timeout w))
                            (S (sequence w)))
        end
    end.
Proof.
  unfold _sched_handler, bind, logger_info, unregister, register, invoke, enter, next_event.
  simpl.
  destruct (unregister_service info (zeroconf w)) as [[e|] z1]; simpl; [reflexivity|].
  destruct (register_service info z1) as [[e|] z2]; reflexivity.
Qed.

Lemma sched_handler_raises (w w1 : world Zc) (e : exn) :
  _sched_handler info sched_timeout w = (Raise e, w1) ->
  queue w1 = queue w /\ sequence w1 = sequence w /\ clock w1 = clock w /\
  (trace w1 = trace w ++ [Logged (INFO "Update mDNS registration");
                          Called UnregisterService] \/
   trace w1 = trace w ++ cycle_trace).
Proof.
  rewrite sched_handler_cases. simpl.
  destruct (fst (unregister_service info (zeroconf w))).
  - intros [= _ <-]. simpl. rewrite <- app_assoc. repeat split; auto.
  - destruct (fst (register_service info _)).
    + intros [= _ <-]. simpl. rewrite <- !app_assoc. repeat split; auto.
    + discriminate.
Qed.

Lemma sched_handler_returns (w w1 : world Zc) :
  _sched_handler info sched_timeout w = (Ok tt, w1) ->
  trace w1 = trace w ++ cycle_trace /\
  queue w1 = heappush (queue w) (next_event sched_timeout w) /\
  sequence w1 = S (sequence w) /\ clock w1 = clock w.
Proof.
  rewrite sched_handler_cases. simpl.
  destruct (fst (unregister_service info (zeroconf w))); [discriminate|].
  destruct (fst (register_service info _)); [discriminate|].
  intros [= <-]. simpl. rewrite <- !app_assoc. repeat split; auto.
Qed.

Lemma refresh_cycles_trace (n : nat) : forall w w' : world Zc,
  refresh_cycles info sched_timeout n w = (Ok tt, w') ->
  trace w' = trace w ++ cycle_traces n.
Proof.
  induction n as [|n IH]; intros w w'; simpl.
  - unfold ret. intros [= <-]. now rewrite app_nil_r.
  - unfold bind.
    destruct (_sched_handler info sched_timeout w) as [[[]|e] w1] eqn:Hh; [|discriminate].
    intros Hrest. apply sched_handler_returns in Hh as (Ht & _).
    apply IH in Hrest. rewrite Hrest, Ht, <- app_assoc. reflexivity.
Qed.

Lemma run_iteration_early (w : world Zc) (ev : Event) (rest : list Event) :
  queue w = ev :: rest ->
  (clock w < ev_time ev)%Q ->
  run_iteration info sched_timeout w
    = (Running, with_clock (clock w + (ev_time ev - clock w))%Q w).
Proof.
  intros Hq Hlt. unfold run_iteration. rewrite Hq.
  apply Qlt_bool_true in Hlt. rewrite Hlt. reflexivity.
Qed.

Lemma run_iteration_due (w : world Zc) (ev : Event) (rest : list Event) :
  queue w = ev :: rest ->
  (ev_time ev <= clock w)%Q ->
  run_iteration info sched_timeout w
    = match _sched_handler info sched_timeout (with_queue rest w) with
      | (Ok _, w') => (Running, with_clock (clock w' + 0)%Q w')
      | (Raise e, w') => (Raised e, w')
      end.
Proof.
  intros Hq Hle. unfold run_iteration. rewrite Hq.
  apply Qlt_bool_false in Hle. rewrite Hle.
  unfold bind, heappop, perform, sleep. rewrite Hq. simpl.
  destruct (ev_action ev).
  destruct (_sched_handler info sched_timeout _) as [[[]|e] w']; reflexivity.
Qed.

Lemma run_is_serve (fuel : nat) : forall w : world Zc,
  run info sched_timeout fuel w = serve info sched_timeout (repeat Turn fuel) w.
Proof.
  induction fuel as [|n IH]; intros w; simpl; [reflexivity|].
  destruct (run_iteration info sched_timeout w) as [[| |e] w']; auto.
Qed.

Lemma run_sched_entered (fuel : nat) (w : world Zc) :
  run_sched info sched_timeout fuel w = run info sched_timeout fuel (entered w).
Proof. reflexivity. Qed.

(** Under the scheduler the effects are whole cycles, one after the
    other, for as long as no call raises. *)
Lemma run_trace_whole_cycles (fuel : nat) : forall (w w' : world Zc) (st : status),
  run info sched_timeout fuel w = (st, w') ->
  (st = Running \/ st = Returned) ->
  exists n, trace w' = trace w ++ cycle_traces n.
Proof.
  induction fuel as [|fuel IH]; intros w w' st Hrun Hst.
  - simpl in Hrun. injection Hrun as _ <-. exists 0%nat. now rewrite app_nil_r.
  - simpl in Hrun. unfold run_iteration in Hrun.
    destruct (queue w) as [|ev rest] eqn:Hq.
    + injection Hrun as _ <-. exists 0%nat. now rewrite app_nil_r.
    + destruct (Qlt_bool (clock w) (ev_time ev)).
      * apply IH in Hrun as [n Hn]; [|exact Hst]. exists n. exact Hn.
      * unfold bind, heappop, perform, sleep in Hrun. destruct (ev_action ev).
        destruct (_sched_handler info sched_timeout _) as [[[]|e] w1] eqn:Hh.
        -- apply sched_handler_returns in Hh as (Hc & _).
           apply IH in Hrun as [n Hn]; [|exact Hst].
           exists (S n). simpl in *. rewrite Hn, Hc, <- app_assoc. reflexivity.
        -- injection Hrun as <- _. destruct Hst; discriminate.
Qed.

End ManagerFacts.

(** C1 (as the code has it).  When [unregister] or [register] raises in a
    refresh cycle, the manager neither catches nor logs the error: the
    exception leaves [_sched_handler] before the next cycle is entered,
    so the queue holds no further cycle, and it propagates out of
    [scheduler.run], which ends [run_sched]. *)
Theorem failed_call_ends_scheduler
    {Zc : Type} `{Responder Zc} (info : ServiceInfo) (sched_timeout : Q)
    (w w1 : world Zc) (ev : Event) (rest : list Event) (e : exn) :
  queue w = ev :: rest ->
  (ev_time ev <= clock w)%Q ->
  _sched_handler info sched_timeout (with_queue rest w) = (Raise e, w1) ->
  (forall fuel, run info sched_timeout (S fuel) w = (Raised e, w1)) /\
  queue w1 = rest /\
  (trace w1 = trace w ++ [Logged (INFO "Update mDNS registration");
                          Called UnregisterService] \/
   trace w1 = trace w ++ [Logged (INFO "Update mDNS registration");
                          Called UnregisterService; Called RegisterService]) /\
  log w1 = log w ++ [INFO "Update mDNS registration"].
Proof.
  intros Hq Hdue Hraise. split.
  - intros fuel. simpl. rewrite (run_iteration_due info sched_timeout w ev rest Hq Hdue).
    rewrite Hraise. reflexivity.
  - apply sched_handler_raises in Hraise as (Hq1 & _ & _ & Ht).
    split; [exact Hq1|]. split; [exact Ht|].
    unfold log. destruct Ht as [-> | ->]; rewrite log_of_app; reflexivity.
Qed.

Lemma failed_call_ends_scheduler_witness :
  (forall fuel, run sample_info 5 (S fuel) due_world = (Raised name_conflict, failed_world)) /\
  queue failed_world = [] /\
  (trace failed_world = trace due_world ++ [Logged (INFO "Update mDNS registration");
                                            Called UnregisterService] \/
   trace failed_world = trace due_world ++ [Logged (INFO "Update mDNS registration");
                                            Called UnregisterService;
                                            Called RegisterService]) /\
  log failed_world = log due_world ++ [INFO "Update mDNS registration"].
Proof.
  apply (failed_call_ends_scheduler sample_info 5 due_world failed_world
           (mkEvent 1%Q 0 0%nat SchedHandler) [] name_conflict).
  - reflexivity.
  - unfold Qle. simpl. lia.
  - vm_compute. reflexivity.
Defined.

(** C1, refuted as stated: a [register] that raises in the first cycle
    ends [run_sched] with that error, however much longer it is let run;
    no cycle is left in the queue and the log has no record of the error. *)
Lemma raised_call_terminates_run_sched :
  fst (run_sched sample_info 5 2 (start_world [None; Some name_conflict]))
    = Raised name_conflict /\
  run_sched sample_info 5 1000 (start_world [None; Some name_conflict])
    = run_sched sample_info 5 2 (start_world [None; Some name_conflict]) /\
  queue (snd (run_sched sample_info 5 2 (start_world [None; Some name_conflict]))) = [] /\
  trace (snd (run_sched sample_info 5 2 (start_world [None; Some name_conflict])))
    = [Logged (INFO "Starting mDNS service scheduler");
       Logged (INFO "Update mDNS registration");
       Called UnregisterService; Called RegisterService].
Proof. repeat split; vm_compute; reflexivity. Qed.



(** C3 (as the code has it).  [n] refresh cycles that each run to their
    end, none of their calls raising, make exactly [n] calls
    of [unregister_service] and [n] of [register_service] and no other.
    Each cycle is its log record, its unregister and, right after it, its
    register, and the cycles follow one another without overlap: the
    calls alternate, an unregister at every even place and a register at
    every odd one. *)
Theorem refresh_cycles_alternate
    {Zc : Type} `{Responder Zc} (info : ServiceInfo) (sched_timeout : Q)
    (n : nat) (w w' : world Zc) :
  refresh_cycles info sched_timeout n w = (Ok tt, w') ->
  trace w' = trace w ++ cycle_traces n /\
  calls w' = calls w ++ cycles n /\
  count_calls UnregisterService (cycles n) = n /\
  count_calls RegisterService (cycles n) = n /\
  count_calls Close (cycles n) = 0%nat /\
  length (cycles n) = (2 * n)%nat /\
  forall i, (i < n)%nat ->
    cycles n !! (2 * i)%nat = Some UnregisterService /\
    cycles n !! (2 * i + 1)%nat = Some RegisterService.
Proof.
  intros Hrun. apply refresh_cycles_trace in Hrun.
  split; [exact Hrun|]. split.
  - unfold calls. rewrite Hrun, calls_of_app, calls_of_cycle_traces. reflexivity.
  - split; [apply count_unregister_cycles|].
    split; [apply count_register_cycles|].
    split; [apply count_close_cycles|].
    split; [apply length_cycles | apply cycles_alternate].
Qed.

Lemma refresh_cycles_alternate_witness :
  trace (snd (refresh_cycles sample_info 5 3 (start_world 0%nat)))
    = trace (start_world 0%nat) ++ cycle_traces 3 /\
  calls (snd (refresh_cycles sample_info 5 3 (start_world 0%nat)))
    = calls (start_world 0%nat) ++ cycles 3 /\
  count_calls UnregisterService (cycles 3) = 3%nat /\
  count_calls RegisterService (cycles 3) = 3%nat /\
  count_calls Close (cycles 3) = 0%nat /\
  length (cycles 3) = (2 * 3)%nat /\
  forall i, (i < 3)%nat ->
    cycles 3 !! (2 * i)%nat = Some UnregisterService /\
    cycles 3 !! (2 * i + 1)%nat = Some RegisterService.
Proof.
  apply (refresh_cycles_alternate sample_info 5 3 (start_world 0%nat)).
  vm_compute. reflexivity.
Defined.

(** C3, refuted as stated: one invocation whose [unregister] raises has
    made one call of [unregister_service] and none of
    [register_service]; and of three invocations the first of which has
    its [register] raise, only the first takes place, so that the three
    make one call of each instead of three. *)
Lemma failed_cycle_breaks_the_count :
  fst (refresh_cycles sample_info 5 1 (start_world [Some name_conflict]))
    = Raise name_conflict /\
  calls (snd (refresh_cycles sample_info 5 1 (start_world [Some name_conflict])))
    = [UnregisterService] /\
  count_calls UnregisterService
    (calls (snd (refresh_cycles sample_info 5 1 (start_world [Some name_conflict])))) = 1%nat /\
  count_calls RegisterService
    (calls (snd (refresh_cycles sample_info 5 1 (start_world [Some name_conflict])))) = 0%nat /\
  fst (refresh_cycles sample_info 5 3 (start_world [None; Some name_conflict]))
    = Raise name_conflict /\
  calls (snd (refresh_cycles sample_info 5 3 (start_world [None; Some name_conflict])))
    = [UnregisterService; RegisterService].
Proof. repeat split; vm_compute; reflexivity. Qed.



(** The same two turns when [unregister] raises: [register] is not
    called. *)
Example first_cycle_unregister_fails :
  run_sched sample_info 5 2 (start_world [Some name_conflict])
    = (Raised name_conflict,
       mkWorld 1%Q []
               [Logged (INFO "Starting mDNS service scheduler");
                Logged (INFO "Update mDNS registration");
                Called UnregisterService]
               [] 1%nat).
Proof. vm_compute. reflexivity. Qed.


(* ===================================================================== *)
(** * Part VIII: further properties                                       *)
(* ===================================================================== *)

(** ** Configuration loading *)

Lemma config_ext (c1 c2 : MDNSConfig) :
  (forall k, is_field k = true -> get_field c1 k = get_field c2 k) -> c1 = c2.
Proof.
  intros E. destruct c1 as [t1 n1 p1 r1 o1], c2 as [t2 n2 p2 r2 o2].
  pose proof (E "type" eq_refl) as Et. pose proof (E "name" eq_refl) as En.
  pose proof (E "port" eq_refl) as Ep. pose proof (E "properties" eq_refl) as Er.
  pose proof (E "timeout" eq_refl) as Eo.
  vm_compute in Et, En, Ep, Er, Eo. congruence.
Qed.

Lemma keys_are_fields_forall (d : list (string * pyval)) :
  keys_are_fields d = true <-> forall kv, kv ∈ d -> is_field (fst kv) = true.
Proof.
  unfold keys_are_fields. rewrite forallb_forall.
  split; intros Hd kv Hin; apply Hd; apply list_elem_of_In; exact Hin.
Qed.

(** With keys that do not repeat, an item is read exactly when it is there. *)
Lemma dict_get_elem_of (d : list (string * pyval)) (k : string) :
  NoDup (map fst d) ->
  forall v, dict_get d k = Some v <-> (k, v) ∈ d.
Proof.
  induction d as [|[k' v'] rest IH]; intros Hnd v; simpl.
  - split; [discriminate | intros Hin; inversion Hin].
  - simpl in Hnd. apply NoDup_cons in Hnd as [Hnotin Hnd]. specialize (IH Hnd).
    rewrite elem_of_cons. destruct (dict_get rest k) as [v0|] eqn:Hg.
    + split.
      * intros [= ->]. right. apply IH. reflexivity.
      * intros [[= -> ->] | Hin].
        -- exfalso. apply Hnotin. apply list_elem_of_fmap.
           exists (k', v0). split; [reflexivity|]. apply IH. reflexivity.
        -- apply IH in Hin. exact Hin.
    + destruct (String.eqb_spec k' k) as [->|Hne].
      * split.
        -- intros [= ->]. left. reflexivity.
        -- intros [[= ->] | Hin]; [reflexivity|]. apply IH in Hin. discriminate Hin.
      * split; [discriminate|].
        intros [[= -> _] | Hin]; [congruence|]. apply IH in Hin. discriminate Hin.
Qed.

(** X2.  The file [load_config] creates for a missing one is read back by
    the next [load_config] as the same default configuration, with no
    further write and no further log record. *)
Theorem load_config_reads_back_created_file
    (decode : string -> decoded) (e : env) (path : string) :
  disk e !! path = None ->
  through_file e path = false ->
  disk e !! parent path = Some (Directory true) ->
  decode default_config_text = Decoded (asdict MDNSConfig_default) ->
  files (snd (load_config decode e path)) !! path = Some default_config_text /\
  load_config decode (snd (load_config decode e path)) path
    = (Ok MDNSConfig_default, snd (load_config decode e path)).
Proof.
  intros Hn Ht Hp Hd. rewrite (load_config_missing decode e path Hn Ht Hp).
  cbn [snd].
  assert (Hf : files (log_to (WARNING "Config file not found. Created default config.")
                        {| disk := <[path := File default_config_text true]> (disk e);
                           logged := logged e |}) !! path
               = Some default_config_text).
  { apply lookup_files. exists default_config_text, true. cbn [disk log_to].
    rewrite lookup_insert_eq. repeat split; vm_compute; reflexivity. }
  split; [exact Hf|].
  unfold load_config.
  rewrite (load_config_try_present decode _ path default_config_text Hf), Hd.
  reflexivity.
Qed.

Lemma load_config_reads_back_created_file_witness :
  files (snd (load_config Decoder.decode empty_env config_path)) !! config_path
    = Some default_config_text /\
  load_config Decoder.decode (snd (load_config Decoder.decode empty_env config_path))
              config_path
    = (Ok MDNSConfig_default, snd (load_config Decoder.decode empty_env config_path)).
Proof.
  apply (load_config_reads_back_created_file Decoder.decode empty_env config_path).
  - vm_compute. reflexivity.
  - vm_compute. reflexivity.
  - vm_compute. reflexivity.
  - vm_compute. reflexivity.
Defined.

(** X3.  [MDNSConfig] and [asdict] are inverse to each other: a file that
    decodes to [asdict c] loads as exactly [c], and nothing is changed or
    logged. *)
Theorem load_config_inverts_asdict
    (decode : string -> decoded) (e : env) (path text : string) (c : MDNSConfig) :
  files e !! path = Some text ->
  decode text = Decoded (asdict c) ->
  MDNSConfig_init (asdict c) = Ok c /\
  load_config decode e path = (Ok c, e).
Proof.
  intros Hf Hd.
  assert (Hinit : MDNSConfig_init (asdict c) = Ok c) by (destruct c; reflexivity).
  split; [exact Hinit|].
  unfold load_config. rewrite (load_config_try_present decode e path text Hf), Hd, Hinit.
  reflexivity.
Qed.

Lemma load_config_inverts_asdict_witness :
  MDNSConfig_init (asdict custom_config) = Ok custom_config /\
  load_config Decoder.decode (env_with custom_text) config_path
    = (Ok custom_config, env_with custom_text).
Proof.
  apply (load_config_inverts_asdict Decoder.decode (env_with custom_text)
           config_path custom_text custom_config).
  - vm_compute. reflexivity.
  - vm_compute. reflexivity.
Defined.

(** X4.  The order of the keys of the JSON object does not matter: two
    objects with the same items, in any order, give the same
    configuration, or both the same [TypeError]. *)
Theorem key_order_is_irrelevant (d1 d2 : list (string * pyval)) :
  NoDup (map fst d1) ->
  d1 ≡ₚ d2 ->
  MDNSConfig_init (PDict d1) = MDNSConfig_init (PDict d2).
Proof.
  intros Hnd Hp.
  assert (Hnd2 : NoDup (map fst d2)).
  { rewrite <- (Permutation_map fst Hp). exact Hnd. }
  assert (Hk : keys_are_fields d1 = keys_are_fields d2).
  { apply eq_true_iff_eq. rewrite !keys_are_fields_forall.
    split; intros Hd kv Hin; apply Hd; [rewrite Hp | rewrite <- Hp]; exact Hin. }
  simpl. destruct (keys_are_fields d1) eqn:Hk1; symmetry in Hk.
  - destruct (bind_kwargs_known d1 MDNSConfig_default Hk1) as (c1 & -> & G1).
    destruct (bind_kwargs_known d2 MDNSConfig_default Hk) as (c2 & -> & G2).
    f_equal. apply config_ext. intros k Hfield.
    rewrite (G1 k Hfield), (G2 k Hfield).
    assert (Hget : dict_get d1 k = dict_get d2 k).
    { destruct (dict_get d1 k) as [v|] eqn:H1.
      - symmetry. apply (dict_get_elem_of d2 k Hnd2 v). rewrite <- Hp.
        apply (dict_get_elem_of d1 k Hnd v). exact H1.
      - destruct (dict_get d2 k) as [v|] eqn:H2; [|reflexivity].
        apply (dict_get_elem_of d2 k Hnd2 v) in H2. rewrite <- Hp in H2.
        apply (dict_get_elem_of d1 k Hnd v) in H2. congruence. }
    rewrite Hget. reflexivity.
  - rewrite (bind_kwargs_unknown d1 _ Hk1), (bind_kwargs_unknown d2 _ Hk). reflexivity.
Qed.

Lemma key_order_is_irrelevant_witness :
  MDNSConfig_init (PDict [("port", PInt 9999); ("timeout", PInt 5)])
    = MDNSConfig_init (PDict [("timeout", PInt 5); ("port", PInt 9999)]).
Proof.
  apply key_order_is_irrelevant.
  - apply (bool_decide_unpack _). vm_compute. exact I.
  - apply perm_swap.
Defined.

(** X5.  The call [MDNSConfig] with an unpacked value raises nothing but
    [TypeError], and raises it exactly when the value is not a mapping
    all of whose keys are fields; an empty object is accepted and gives
    the defaults. *)
Theorem MDNSConfig_init_errors (v : pyval) :
  (expected_shape v = true <-> exists c, MDNSConfig_init v = Ok c) /\
  (expected_shape v = false <-> MDNSConfig_init v = Raise TypeError) /\
  (forall e, MDNSConfig_init v = Raise e -> e = TypeError) /\
  MDNSConfig_init (PDict []) = Ok MDNSConfig_default.
Proof.
  split; [|split; [|split]].
  - split.
    + intros Hs. destruct v; try discriminate.
      destruct (bind_kwargs_known d MDNSConfig_default Hs) as (c & Hc & _). eauto.
    + intros [c Hc]. destruct (expected_shape v) eqn:Hs; [reflexivity|].
      rewrite (MDNSConfig_init_wrong_shape v Hs) in Hc. discriminate.
  - split.
    + apply MDNSConfig_init_wrong_shape.
    + intros Hr. apply (MDNSConfig_init_raises v TypeError Hr).
  - intros e Hr. apply (MDNSConfig_init_raises v e Hr).
  - reflexivity.
Qed.

(** ** The descriptor and [main] *)

Lemma falsy_names_spec (v : pyval) : py_truthy v = false <-> v ∈ falsy_names.
Proof.
  unfold falsy_names. rewrite !elem_of_cons, elem_of_nil. split.
  - destruct v as [|b|z|f|s|l|d]; simpl.
    + auto.
    + destruct b; [discriminate | auto].
    + destruct (Z.eqb_spec z 0) as [->|]; [auto | discriminate].
    + destruct f as [[]| | |]; try discriminate; auto 10.
    + destruct s; [auto 10 | discriminate].
    + destruct l; [auto 10 | discriminate].
    + destruct d; [auto 10 | discriminate].
  - intros [->|[->|[->|[->|[->|[->|[->|[->|[]]]]]]]]]; reflexivity.
Qed.

(** X6.  The host name stands in for every [name] that Python takes for
    empty, not only for the empty text: [null], [false], [0], [0.0], an
    empty list and an empty object too.  Any other [name] is used as it
    is, through [str]. *)
Theorem falsy_name_gives_hostname
    (py_str : pyval -> string) (hostname : string) (c : MDNSConfig) (t : string) :
  (forall s, py_str (PStr s) = s) ->
  type c = PStr t ->
  (name c ∈ falsy_names ->
     si_name (service_info py_str hostname c) = hostname +:+ "." +:+ t) /\
  (name c ∉ falsy_names ->
     si_name (service_info py_str hostname c) = py_str (name c) +:+ "." +:+ t).
Proof.
  intros Hstr Ht. unfold service_info, service_name, py_not. simpl. rewrite Ht, Hstr.
  split; intros Hn.
  - apply falsy_names_spec in Hn. rewrite Hn. simpl. rewrite Hstr. reflexivity.
  - destruct (py_truthy (name c)) eqn:Htr; [reflexivity|].
    exfalso. apply Hn. apply falsy_names_spec. exact Htr.
Qed.

Lemma falsy_name_gives_hostname_witness :
  fst (load_config Decoder.decode (env_with null_name_text) config_path)
    = Ok {| type := PStr "_http._tcp.local."; name := PNone;
            port := PInt 8080; properties := PDict []; timeout := PInt 60 |} /\
  si_name (service_info Str.str "box1"
             {| type := PStr "_http._tcp.local."; name := PNone;
                port := PInt 8080; properties := PDict []; timeout := PInt 60 |})
    = "box1" +:+ "." +:+ "_http._tcp.local.".
Proof.
  split; [vm_compute; reflexivity|].
  apply (falsy_name_gives_hostname Str.str "box1"
           {| type := PStr "_http._tcp.local."; name := PNone;
              port := PInt 8080; properties := PDict []; timeout := PInt 60 |}
           "_http._tcp.local.").
  - intros s. reflexivity.
  - reflexivity.
  - apply falsy_names_spec. reflexivity.
Defined.

(** X7.  Whenever the config file is missing from a directory the
    process may create files in, or is text that is not JSON or is JSON
    of the wrong shape, [main] calls [ServiceInfo] for the default
    service on this host: type [_http._tcp.local.], name and server from
    the host name, port 8080, no properties; when the constructor takes
    them, the manager is to refresh every 60 seconds, and when it
    raises, its error leaves [main].  One warning is logged either way. *)
Theorem main_setup_falls_back_to_defaults
    (decode : string -> decoded) (py_str : pyval -> string)
    (construct : ServiceInfo -> option exn)
    (hostname : string) (e : env) (path : string) :
  (forall s, py_str (PStr s) = s) ->
  ((disk e !! path = None /\ through_file e path = false /\
    disk e !! parent path = Some (Directory true)) \/
   exists text, files e !! path = Some text /\
     (decode text = Failed NotJSON \/
      exists v, decode text = Decoded v /\ expected_shape v = false)) ->
  fst (main_setup decode py_str construct hostname e path)
    = match construct (default_service_info hostname) with
      | None => Ok (default_service_info hostname, PInt 60)
      | Some ex => Raise ex
      end /\
  exists msg, logged (snd (main_setup decode py_str construct hostname e path))
              = logged e ++ [WARNING msg].
Proof.
  intros Hstr Hcase. unfold main_setup.
  assert (Hargs : manager_args py_str hostname MDNSConfig_default
                  = (default_service_info hostname, PInt 60)).
  { unfold manager_args, service_info, service_name, default_service_info. simpl.
    rewrite !Hstr. reflexivity. }
  destruct Hcase as [(Hn & Ht & Hp) | (text & Hf & Hbad)].
  - rewrite (load_config_missing decode e path Hn Ht Hp), Hargs.
    destruct (construct (default_service_info hostname)); simpl; eauto.
  - rewrite (load_config_present_invalid decode e path text Hf Hbad), Hargs.
    destruct (construct (default_service_info hostname)); simpl; eauto.
Qed.

Lemma main_setup_falls_back_to_defaults_witness :
  fst (main_setup Decoder.decode Str.str integer_port "box1" (env_with broken_text)
         config_path)
    = Ok (default_service_info "box1", PInt 60) /\
  exists msg,
    logged (snd (main_setup Decoder.decode Str.str integer_port "box1"
                   (env_with broken_text) config_path))
      = logged (env_with broken_text) ++ [WARNING msg].
Proof.
  apply (main_setup_falls_back_to_defaults Decoder.decode Str.str integer_port "box1"
           (env_with broken_text) config_path).
  - intros s. reflexivity.
  - right. exists broken_text. split; [vm_compute; reflexivity|].
    left. vm_compute. reflexivity.
Defined.

(** X8.  For a config file holding a JSON object of declared fields,
    [main] passes every entry on to [ServiceInfo] unchecked: the type,
    port and properties it is called with are the object's entries as
    decoded, or the defaults of the entries that are absent, and the
    server name comes from the host name alone.  Whether the manager is
    built is then up to that constructor: when it raises, its error
    leaves [main]; when it returns, the manager's refresh interval is
    the [timeout] entry as decoded.  Nothing is written or logged. *)
Theorem main_setup_passes_entries_on
    (decode : string -> decoded) (py_str : pyval -> string)
    (construct : ServiceInfo -> option exn)
    (hostname : string) (e : env) (path text : string) (d : list (string * pyval)) :
  files e !! path = Some text ->
  decode text = Decoded (PDict d) ->
  keys_are_fields d = true ->
  exists info interval,
    main_setup decode py_str construct hostname e path
      = (match construct info with
         | None => Ok (info, interval)
         | Some ex => Raise ex
         end, e) /\
    Some (type_ info) = entry_or_default d "type" /\
    Some (si_port info) = entry_or_default d "port" /\
    Some (si_properties info) = entry_or_default d "properties" /\
    Some interval = entry_or_default d "timeout" /\
    server info = py_str (PStr hostname) +:+ ".local.".
Proof.
  intros Hf Hd Hk. unfold main_setup.
  destruct (load_config_present_valid decode e path text d Hf Hd Hk) as (c & -> & G).
  exists (service_info py_str hostname c), (timeout c).
  split.
  - unfold manager_args. destruct (construct (service_info py_str hostname c)); reflexivity.
  - unfold entry_or_default.
    rewrite <- (G "type" eq_refl), <- (G "port" eq_refl), <- (G "properties" eq_refl),
      <- (G "timeout" eq_refl).
    repeat split.
Qed.

Lemma main_setup_passes_entries_on_witness :
  exists info interval,
    main_setup Decoder.decode Str.str integer_port "box1" (env_with mismatch_text)
               config_path
      = (match integer_port info with
         | None => Ok (info, interval)
         | Some ex => Raise ex
         end, env_with mismatch_text) /\
    Some (type_ info) = entry_or_default [("port", PStr "http")] "type" /\
    Some (si_port info) = entry_or_default [("port", PStr "http")] "port" /\
    Some (si_properties info) = entry_or_default [("port", PStr "http")] "properties" /\
    Some interval = entry_or_default [("port", PStr "http")] "timeout" /\
    server info = Str.str (PStr "box1") +:+ ".local.".
Proof.
  apply (main_setup_passes_entries_on Decoder.decode Str.str integer_port "box1"
           (env_with mismatch_text) config_path mismatch_text [("port", PStr "http")]).
  - vm_compute. reflexivity.
  - vm_compute. reflexivity.
  - reflexivity.
Defined.

(** The two ways of that file: a constructor that takes any port is
    called with the text, one that insists on an integer raises. *)
Example text_port_reaches_the_constructor :
  fst (main_setup Decoder.decode Str.str lenient "box1" (env_with mismatch_text) config_path)
    = Ok ({| type_ := PStr "_http._tcp.local."; si_name := "box1._http._tcp.local.";
             si_port := PStr "http"; si_properties := PDict [];
             server := "box1.local." |}, PInt 60) /\
  fst (main_setup Decoder.decode Str.str integer_port "box1" (env_with mismatch_text)
         config_path)
    = Raise TypeError.
Proof. split; vm_compute; reflexivity. Qed.

(** ** The scheduler loop *)

Section LoopFacts.

Context {Zc : Type} `{Responder Zc}.
Variable info : ServiceInfo.
Variable sched_timeout : Q.

Lemma serve_one_event (inputs : list input) : forall (w : world Zc) (ev : Event),
  queue w = [ev] ->
  fst (serve info sched_timeout inputs w) <> Returned /\
  (length (queue (snd (serve info sched_timeout inputs w))) <= 1)%nat /\
  (fst (serve info sched_timeout inputs w) = Running ->
   exists ev', queue (snd (serve info sched_timeout inputs w)) = [ev']).
Proof.
  induction inputs as [|[|] rest IH]; intros w ev Hq.
  - simpl. rewrite Hq. repeat split; eauto; discriminate.
  - simpl. destruct (Qlt_le_dec (clock w) (ev_time ev)) as [Hlt|Hle].
    + rewrite (run_iteration_early info sched_timeout w ev [] Hq Hlt).
      apply (IH _ ev). exact Hq.
    + rewrite (run_iteration_due info sched_timeout w ev [] Hq Hle).
      destruct (_sched_handler info sched_timeout (with_queue [] w)) as [[[]|e] w1] eqn:Hh.
      * apply sched_handler_returns in Hh as (_ & Hq1 & _).
        apply (IH _ (next_event sched_timeout (with_queue [] w))). exact Hq1.
      * apply sched_handler_raises in Hh as (Hq1 & _). simpl in *. rewrite Hq1.
        repeat split; try discriminate; simpl; lia.
  - simpl. destruct (close w) as [[[]|e] w1] eqn:Hc.
    + apply (IH _ ev). unfold close, invoke in Hc.
      destruct (zc_close (zeroconf w)) as [[e|] z]; [discriminate|].
      injection Hc as <-. exact Hq.
    + unfold close, invoke in Hc.
      destruct (zc_close (zeroconf w)) as [[e'|] z]; [|discriminate].
      injection Hc as _ <-. simpl. rewrite Hq.
      repeat split; try discriminate; simpl; lia.
Qed.

Lemma main_loop_app (inputs : list input) (signals : list signal) : forall w : world Zc,
  main_loop info sched_timeout (map Deliver inputs ++ signals) w
    = match serve info sched_timeout inputs w with
      | (Running, w') => main_loop info sched_timeout signals w'
      | stopped => stopped
      end.
Proof.
  induction inputs as [|i rest IH]; intros w; [reflexivity|].
  simpl map. simpl app. cbn [main_loop].
  destruct i; simpl serve.
  - destruct (run_iteration info sched_timeout w) as [[| |e] w']; auto.
  - destruct (close w) as [[[]|e] w']; auto.
Qed.

End LoopFacts.

Lemma close_trace {Zc : Type} `{Responder Zc} (w : world Zc) :
  trace (snd (close w)) = trace w ++ [Called Close].
Proof. unfold close, invoke. destruct (zc_close (zeroconf w)) as [[e|] z]; reflexivity. Qed.

(** X9.  From a fresh scheduler on, the queue never holds more than one
    refresh, and holds exactly one for as long as the loop runs, signals
    or not; [scheduler.run] therefore never finds the queue empty and
    never returns: only an exception ends [run_sched]. *)
Theorem at_most_one_pending_refresh
    {Zc : Type} `{Responder Zc} (info : ServiceInfo) (sched_timeout : Q)
    (inputs : list input) (fuel : nat) (w : world Zc) :
  queue w = [] ->
  fst (serve_sched info sched_timeout inputs w) <> Returned /\
  (length (queue (snd (serve_sched info sched_timeout inputs w))) <= 1)%nat /\
  (fst (serve_sched info sched_timeout inputs w) = Running ->
   exists ev, queue (snd (serve_sched info sched_timeout inputs w)) = [ev]) /\
  fst (run_sched info sched_timeout fuel w) <> Returned /\
  (fst (run_sched info sched_timeout fuel w) = Running ->
   exists ev, queue (snd (run_sched info sched_timeout fuel w)) = [ev]).
Proof.
  intros Hq.
  assert (Hq0 : queue (entered w)
                = [mkEvent (clock w + 1)%Q 0 (sequence w) SchedHandler])
    by (unfold entered; rewrite Hq; reflexivity).
  change (serve_sched info sched_timeout inputs w)
    with (serve info sched_timeout inputs (entered w)).
  rewrite run_sched_entered, run_is_serve.
  destruct (serve_one_event info sched_timeout inputs (entered w) _ Hq0) as (H1 & H2 & H3).
  destruct (serve_one_event info sched_timeout (repeat Turn fuel) (entered w) _ Hq0)
    as (H4 & _ & H6).
  repeat split; assumption.
Qed.

Lemma at_most_one_pending_refresh_witness :
  fst (serve_sched sample_info 5 [Turn; Turn; SIGTERM; Turn] (start_world 0%nat)) <> Returned /\
  (length (queue (snd (serve_sched sample_info 5 [Turn; Turn; SIGTERM; Turn]
                         (start_world 0%nat)))) <= 1)%nat /\
  (fst (serve_sched sample_info 5 [Turn; Turn; SIGTERM; Turn] (start_world 0%nat)) = Running ->
   exists ev, queue (snd (serve_sched sample_info 5 [Turn; Turn; SIGTERM; Turn]
                            (start_world 0%nat))) = [ev]) /\
  fst (run_sched sample_info 5 7 (start_world 0%nat)) <> Returned /\
  (fst (run_sched sample_info 5 7 (start_world 0%nat)) = Running ->
   exists ev, queue (snd (run_sched sample_info 5 7 (start_world 0%nat))) = [ev]).
Proof.
  apply (at_most_one_pending_refresh sample_info 5 [Turn; Turn; SIGTERM; Turn] 7
           (start_world 0%nat)).
  reflexivity.
Defined.

(** X14.  In a refresh cycle [register] is called exactly when
    [unregister] has returned, and on the responder as [unregister] left
    it.  A call that raises ends the cycle with its error: nothing more
    is called and nothing is entered into the scheduler, whose queue is
    as it was.  A cycle that returns has entered one event: the handler
    again, with priority 1. *)
Theorem refresh_cycle_call_order
    {Zc : Type} `{Responder Zc} (info : ServiceInfo) (sched_timeout : Q)
    (w : world Zc) :
  let u := unregister_service info (zeroconf w) in
  let r := register_service info (snd u) in
  let out := _sched_handler info sched_timeout w in
  log (snd out) = log w ++ [INFO "Update mDNS registration"] /\
  match fst u with
  | Some e =>
      fst out = Raise e /\
      calls (snd out) = calls w ++ [UnregisterService] /\
      zeroconf (snd out) = snd u /\
      queue (snd out) = queue w
  | None =>
      calls (snd out) = calls w ++ [UnregisterService; RegisterService] /\
      zeroconf (snd out) = snd r /\
      match fst r with
      | Some e => fst out = Raise e /\ queue (snd out) = queue w
      | None =>
          fst out = Ok tt ->
          exists ev, queue (snd out) = heappush (queue w) ev /\
                     ev_action ev = SchedHandler /\ ev_priority ev = 1
      end
  end.
Proof.
  intros u r out. subst out. rewrite sched_handler_cases. cbv zeta.
  fold u. fold r. unfold calls, log.
  destruct (fst u) as [e|]; [|destruct (fst r) as [e|]];
    cbn [fst snd trace zeroconf queue];
    rewrite ?calls_of_app, ?log_of_app; simpl; rewrite ?app_nil_r, <- ?app_assoc;
    repeat split; try reflexivity.
  intros _. eexists. repeat split.
Qed.

Example refresh_cycle_call_order_samples :
  calls (snd (_sched_handler sample_info 5 (start_world [Some name_conflict])))
    = [UnregisterService] /\
  calls (snd (_sched_handler sample_info 5 (start_world [None; Some name_conflict])))
    = [UnregisterService; RegisterService] /\
  queue (snd (_sched_handler sample_info 5 (start_world [None; Some name_conflict]))) = [] /\
  length (queue (snd (_sched_handler sample_info 5 (start_world [None; None])))) = 1%nat.
Proof. repeat split; vm_compute; reflexivity. Qed.

(** X15.  The interrupt of the keyboard ends the process quietly: when it
    arrives while the loop runs, [KeyboardInterrupt] is passed over, the
    [atexit] handler makes one call of the responder's [close] as the
    last effect, and nothing that would have come later happens. *)
Theorem keyboard_interrupt_exits_quietly
    {Zc : Type} `{Responder Zc} (info : ServiceInfo) (sched_timeout : Q)
    (inputs : list input) (later : list signal) (w w1 : world Zc) :
  serve_sched info sched_timeout inputs w = (Running, w1) ->
  guarded_main info sched_timeout (map Deliver inputs ++ SIGINT :: later) w
    = (Returned, snd (close w1)) /\
  trace (snd (close w1)) = trace w1 ++ [Called Close].
Proof.
  intros Hrun. split; [|apply close_trace].
  unfold guarded_main.
  change ((logger_info "Starting mDNS service scheduler" ;; enter 1 0 SchedHandler) w)
    with (@Ok unit tt, entered w).
  cbv iota beta. rewrite main_loop_app.
  change (serve info sched_timeout inputs (entered w))
    with (serve_sched info sched_timeout inputs w).
  rewrite Hrun. reflexivity.
Qed.

Lemma keyboard_interrupt_exits_quietly_witness :
  guarded_main sample_info 5 (map Deliver [Turn; Turn; Turn] ++ SIGINT :: [Deliver Turn])
               (start_world 0%nat)
    = (Returned,
       snd (close (snd (serve_sched sample_info 5 [Turn; Turn; Turn] (start_world 0%nat))))) /\
  trace (snd (close (snd (serve_sched sample_info 5 [Turn; Turn; Turn] (start_world 0%nat)))))
    = trace (snd (serve_sched sample_info 5 [Turn; Turn; Turn] (start_world 0%nat)))
      ++ [Called Close].
Proof.
  apply (keyboard_interrupt_exits_quietly sample_info 5 [Turn; Turn; Turn] [Deliver Turn]
           (start_world 0%nat)).
  vm_compute. reflexivity.
Defined.

(** X16.  Any other exception leaves the process through [main]: when a
    call raises while the loop runs, the process ends with that error,
    and the [atexit] handler still makes its call of the responder's
    [close], as the last effect. *)
Theorem error_exit_still_closes
    {Zc : Type} `{Responder Zc} (info : ServiceInfo) (sched_timeout : Q)
    (inputs : list input) (later : list signal) (w w0 : world Zc) (e : exn) :
  serve_sched info sched_timeout inputs w = (Raised e, w0) ->
  is_KeyboardInterrupt e = false ->
  guarded_main info sched_timeout (map Deliver inputs ++ later) w
    = (Raised e, snd (close w0)) /\
  process info sched_timeout inputs w = (Raised e, snd (close w0)) /\
  trace (snd (close w0)) = trace w0 ++ [Called Close].
Proof.
  intros Hrun Hki. split; [|split; [|apply close_trace]].
  - unfold guarded_main.
    change ((logger_info "Starting mDNS service scheduler" ;; enter 1 0 SchedHandler) w)
      with (@Ok unit tt, entered w).
    cbv iota beta. rewrite main_loop_app.
    change (serve info sched_timeout inputs (entered w))
      with (serve_sched info sched_timeout inputs w).
    rewrite Hrun, Hki. reflexivity.
  - unfold process. rewrite Hrun. reflexivity.
Qed.

Lemma error_exit_still_closes_witness :
  guarded_main sample_info 5 (map Deliver [Turn; Turn] ++ [Deliver Turn])
               (start_world [None; Some name_conflict])
    = (Raised name_conflict,
       snd (close (snd (serve_sched sample_info 5 [Turn; Turn]
                          (start_world [None; Some name_conflict]))))) /\
  process sample_info 5 [Turn; Turn] (start_world [None; Some name_conflict])
    = (Raised name_conflict,
       snd (close (snd (serve_sched sample_info 5 [Turn; Turn]
                          (start_world [None; Some name_conflict]))))) /\
  trace (snd (close (snd (serve_sched sample_info 5 [Turn; Turn]
                            (start_world [None; Some name_conflict])))))
    = trace (snd (serve_sched sample_info 5 [Turn; Turn]
                    (start_world [None; Some name_conflict])))
      ++ [Called Close].
Proof.
  apply (error_exit_still_closes sample_info 5 [Turn; Turn] [Deliver Turn]
           (start_world [None; Some name_conflict])).
  - vm_compute. reflexivity.
  - reflexivity.
Defined.

